(** * vibe-gh-sync: duplicate detection and the sync loop

    A shallow embedding of [vibe_gh_sync.py] (and of the older [main.py]):
    the Python string primitives the duplicate detector relies on, the two
    lookup sets it builds from the board's tasks, the three clients
    ([fetch_github_issues], [fetch_vibe_tasks], [create_vibe_task]) with the
    exceptions they catch, and the polling loop of [run_sync] with its
    process-wide shutdown flag.

    Python [str] values are modelled as [string]; a character is a code
    point below 256.  Python sets of strings are [gset string].  Calls to
    [logger] and [print] have no effect on what is computed and are left
    out. *)

From Stdlib Require Import ZArith Ascii.
From Stdlib Require String.
From stdpp Require Import base decidable option list strings gmap sets pretty.

Local Open Scope Z_scope.
#[local] Set Warnings "-clear-no-such-hyp".

(** ** Python string primitives *)

Module Py.

(** [len(s)] *)
Definition len (s : string) : Z := Z.of_nat (String.length s).

(** Truth value of a [str]: only the empty string is falsy. *)
Definition truthy (s : string) : bool :=
match s with
| EmptyString => false
| String _ _ => true
end.

(** [x or ""] for a value that is [None] or a [str]. *)
Definition or_empty (x : option string) : string :=
match x with
| Some s => if truthy s then s else ""
| None => ""
end.

(** [str.isspace] on one character, which is also the class [\s] of
  [re] on [str] patterns: TAB..CR, FS..US, space, NEL and NBSP. *)
Definition isspace (c : ascii) : bool :=
let n := N_of_ascii c in
((9 <=? n) && (n <=? 13) || (28 <=? n) && (n <=? 32)
 || (n =? 133) || (n =? 160))%N.

Fixpoint lstrip (s : string) : string :=
match s with
| EmptyString => EmptyString
| String c s' => if isspace c then lstrip s' else s
end.

Fixpoint rstrip (s : string) : string :=
match s with
| EmptyString => EmptyString
| String c s' =>
    match rstrip s' with
    | EmptyString => if isspace c then EmptyString else String c EmptyString
    | r => String c r
    end
end.

(** [s.strip()] *)
Definition strip (s : string) : string := rstrip (lstrip s).

(** A start or stop index of a slice, as [PySlice_AdjustIndices] clamps it. *)
Definition slice_index (n i : Z) : Z :=
if i <? 0 then Z.max 0 (i + n) else Z.min i n.

(** [s[a:b]] *)
Definition slice (s : string) (a b : Z) : string :=
let a' := slice_index (len s) a in
let b' := slice_index (len s) b in
String.substring (Z.to_nat a') (Z.to_nat (b' - a')) s.

(** [s.find(sub, start)]: lowest index at or after [start] where [sub]
  occurs, [-1] when there is none. *)
Definition find (s sub : string) (start : Z) : Z :=
let start' := if start <? 0 then Z.max 0 (start + len s) else start in
match String.index (Z.to_nat start') sub s with
| Some i => Z.of_nat i
| None => -1
end.

(** [sub in s] *)
Definition contains (sub s : string) : bool :=
match String.index 0 sub s with
| Some _ => true
| None => false
end.

(** The line feed, ["\n"] in the source. *)
Definition LF : string := String "010"%char EmptyString.

(** Longest prefix whose characters satisfy [p], and [s] without its
  first [n] characters. *)
Fixpoint take_while (p : ascii -> bool) (s : string) : string :=
match s with
| EmptyString => EmptyString
| String c s' => if p c then String c (take_while p s') else EmptyString
end.

Definition drop (n : nat) (s : string) : string :=
String.substring n (String.length s - n) s.

End Py.

(** ** The regular expression [https://github\.com/[^\s\)]+] *)

Module Re.

Definition GITHUB_PREFIX : string := "https://github.com/".

(** The class [[^\s\)]]. *)
Definition url_char (c : ascii) : bool :=
negb (Py.isspace c) && negb (Ascii.eqb c ")"%char).

(** A match of the pattern anchored at the start of [s]: the literal
  prefix, then the longest non-empty run of [url_char] (the [+] is
  greedy and nothing follows it, so no backtracking takes place). *)
Definition match_here (s : string) : option string :=
if String.prefix GITHUB_PREFIX s then
  match Py.take_while url_char (Py.drop (String.length GITHUB_PREFIX) s) with
  | EmptyString => None
  | run => Some (GITHUB_PREFIX +:+ run)
  end
else None.

(** [re.findall]: leftmost matches, scanned left to right, without
  overlap.  [skip] counts the characters of the current match that are
  still to be stepped over. *)
Fixpoint findall_from (skip : nat) (s : string) : list string :=
match s with
| EmptyString => []
| String _ s' =>
    match skip with
    | S k => findall_from k s'
    | O =>
        match match_here s with
        | Some m => m :: findall_from (String.length m - 1) s'
        | None => findall_from 0 s'
        end
    end
end.

Definition findall_github (s : string) : list string := findall_from 0 s.

End Re.

(** ** Data model *)

(** A GitHub issue as [gh issue list --json number,title,body,url] prints it. *)
Record issue := Issue {
  issue_number : Z;
  issue_title : string;
  issue_body : option string;
  issue_url : string
}.

(** A board task; [title] and [content] may be absent or null. *)
Record task := Task {
  task_id : string;
  task_title : option string;
  task_content : option string;
  task_project_id : string
}.

Global Instance issue_eq_dec : EqDecision issue.
Proof. solve_decision. Defined.

Global Instance task_eq_dec : EqDecision task.
Proof. solve_decision. Defined.

(** ** The duplicate detector *)

Definition MARKER : string := "Original Issue: ".

(** The two lookup sets: [existing_urls] and [existing_titles]. *)
Record lookup := Lookup {
  existing_urls : gset string;
  existing_titles : gset string
}.

Definition empty_lookup : lookup := Lookup ∅ ∅.

(** Format 1 of [run_sync]: the text after the first marker up to the next
    line feed, stripped; nothing when that text is empty. *)
Definition marker_url (content : string) : option string :=
  if Py.contains MARKER content then
    let url_start := Py.find content MARKER 0 + Py.len MARKER in
    let url_end := Py.find content Py.LF url_start in
    let url_end := if url_end =? -1 then Py.len content else url_end in
    let url := Py.strip (Py.slice content url_start url_end) in
    if Py.truthy url then Some url else None
  else None.

(** One iteration of [for task in vibe_tasks] in [run_sync]. *)
Definition scan_task (sets : lookup) (t : task) : lookup :=
  let content := Py.or_empty (task_content t) in
  let title := default "" (task_title t) in
  let titles :=
    if Py.truthy title then {[ Py.strip title ]} ∪ existing_titles sets
    else existing_titles sets in
  let urls :=
    match marker_url content with
    | Some url => {[ url ]} ∪ existing_urls sets
    | None => existing_urls sets
    end in
  let urls :=
    foldl (fun acc url => {[ Py.strip url ]} ∪ acc) urls (Re.findall_github content) in
  Lookup urls titles.

Definition build_lookup (vibe_tasks : list task) : lookup :=
  foldl scan_task empty_lookup vibe_tasks.

(** [is_duplicate] of [run_sync]. *)
Definition is_duplicate (sets : lookup) (i : issue) : bool :=
  bool_decide (issue_url i ∈ existing_urls sets)
  || bool_decide (Py.strip (issue_title i) ∈ existing_titles sets).

(** [task_content] of [run_sync]: the body, a blank line, the marker, the URL. *)
Definition new_task_content (i : issue) : string :=
  Py.or_empty (issue_body i) +:+ Py.LF +:+ Py.LF +:+ MARKER +:+ issue_url i.

(** ** Exceptions, the outside world and the monad of the clients *)

(** The exception classes the source names, and [OSError], which
    [subprocess.run] raises when the executable cannot be started. *)
Inductive exn :=
| CalledProcessError (stderr : string)
| TimeoutExpired
| JSONDecodeError
| OSError
| Timeout
| RequestException.

(** [isinstance(e, requests.RequestException)]; [requests.Timeout] is a
    subclass. *)
Definition is_RequestException (e : exn) : bool :=
  match e with
  | Timeout | RequestException => true
  | _ => false
  end.

(** The JSON body of the board: [{success: bool, data: [...]}]. *)
Record envelope := Envelope {
  env_success : bool;
  env_data : option (list task)
}.

(** An HTTP response; [resp_json] is [None] when the body is not JSON. *)
Record response := Response {
  status_code : Z;
  resp_text : string;
  resp_json : option envelope
}.

(** The JSON payload of [POST /api/tasks]. *)
Record payload := Payload {
  payload_title : string;
  payload_project_id : string;
  payload_content : string
}.

(** What a child process does: it ends with an exit status after some
    seconds, or cannot be started at all. *)
Inductive tool_behaviour :=
| Exits (returncode : Z) (stdout stderr : string) (elapsed : Z)
| LaunchFails.

(** What an HTTP request does: [requests] raises nothing outside the
    [RequestException] hierarchy. *)
Inductive http_behaviour :=
| Responds (r : response)
| TimesOut
| ConnectionFails.

(** Calls that reach outside the process, and reads of the shutdown flag. *)
Inductive event :=
| EvReadFlag (b : bool)
| EvSubprocess (cmd : list string) (timeout : option Z)
| EvGet (url : string) (params : list (string * string)) (timeout : option Z)
| EvPost (url : string) (body : payload) (timeout : option Z)
| EvSleep (secs : Z)
| EvDetect.

(** The environment answers every call; the answer may depend on the moment
    of the call, which is the number of events before it.  [signal_at t]
    says that SIGINT or SIGTERM is delivered at moment [t]. *)
Record environment := Environment {
  tool : nat -> list string -> tool_behaviour;
  http_get : nat -> string -> list (string * string) -> http_behaviour;
  http_post : nat -> string -> payload -> http_behaviour;
  json_loads : string -> option (list issue);
  detect_result : nat -> option string;
  signal_at : nat -> bool
}.

(** The process state the loop threads: the calls made so far, oldest
    first, and the module-level flag [shutdown_requested]. *)
Record world := World {
  history : list event;
  shutdown_requested : bool
}.

Definition initial_world : world := World [] false.

Inductive result (A : Type) :=
| Ok (a : A)
| Raise (e : exn).
Arguments Ok {A} a.
Arguments Raise {A} e.

Definition M (A : Type) : Type := world -> result A * world.

Definition ret {A} (a : A) : M A := fun w => (Ok a, w).

Definition bind {A B} (m : M A) (k : A -> M B) : M B :=
  fun w =>
    match m w with
    | (Ok a, w') => k a w'
    | (Raise e, w') => (Raise e, w')
    end.

Definition raise {A} (e : exn) : M A := fun w => (Raise e, w).

(** [try: m  except ...: handler]; a handler that does not match the
    exception re-raises it. *)
Definition try_except {A} (m : M A) (handler : exn -> M A) : M A :=
  fun w =>
    match m w with
    | (Ok a, w') => (Ok a, w')
    | (Raise e, w') => handler e w'
    end.

Global Instance M_ret : MRet M := @ret.
Global Instance M_bind : MBind M := fun A B k m => bind m k.

Section Clients.

Variable E : environment.

(** One call: it takes place at moment [length (history w)]; a signal
  delivered at that moment runs [signal_handler], which sets the flag. *)
Definition advance (ev : event) (w : world) : world :=
World (history w ++ [ev])
      (shutdown_requested w || signal_at E (length (history w))).

Definition tick (ev : event) : M nat :=
fun w => (Ok (length (history w)), advance ev w).

(** A read of the global [shutdown_requested]. *)
Definition read_flag : M bool :=
fun w =>
  let t := length (history w) in
  let b := shutdown_requested w || signal_at E t in
  (Ok b, World (history w ++ [EvReadFlag b]) b).

(** [time.sleep(secs)] *)
Definition sleep (secs : Z) : M unit :=
tick (EvSleep secs);; mret tt.

Definition timed_out (timeout : option Z) (elapsed : Z) : bool :=
match timeout with
| Some limit => limit <? elapsed
| None => false
end.

(** [subprocess.run(cmd, capture_output=True, text=True, check=True,
  timeout=timeout).stdout] *)
Definition subprocess_run (cmd : list string) (timeout : option Z) : M string :=
t ← tick (EvSubprocess cmd timeout);
match tool E t cmd with
| LaunchFails => raise OSError
| Exits returncode stdout stderr elapsed =>
    if timed_out timeout elapsed then raise TimeoutExpired
    else if returncode =? 0 then ret stdout
    else raise (CalledProcessError stderr)
end.

(** [json.loads] on the output of [gh]. *)
Definition loads (s : string) : M (list issue) :=
match json_loads E s with
| Some v => ret v
| None => raise JSONDecodeError
end.

Definition raise_http {A} (b : http_behaviour) (k : response -> M A) : M A :=
match b with
| Responds r => k r
| TimesOut => raise Timeout
| ConnectionFails => raise RequestException
end.

(** [requests.get(url, params=params, timeout=timeout)] *)
Definition requests_get (url : string) (params : list (string * string))
  (timeout : option Z) : M response :=
t ← tick (EvGet url params timeout);
raise_http (http_get E t url params) ret.

(** [requests.post(url, json=body, timeout=timeout)] *)
Definition requests_post (url : string) (body : payload)
  (timeout : option Z) : M response :=
t ← tick (EvPost url body timeout);
raise_http (http_post E t url body) ret.

(** [resp.json()]; on a body that is not JSON it raises
  [requests.JSONDecodeError], a [RequestException]. *)
Definition json (resp : response) : M envelope :=
match resp_json resp with
| Some data => ret data
| None => raise RequestException
end.

Definition gh_issue_list (repo limit : string) : list string :=
["gh"; "issue"; "list"; "--repo"; repo; "--state"; "open";
 "--limit"; limit; "--json"; "number,title,body,url"].

Definition fetch_github_issues (repo : string) (limit : Z) : M (list issue) :=
try_except
  (stdout ← subprocess_run (gh_issue_list repo (pretty limit)) (Some 60);
   loads stdout)
  (fun e =>
     match e with
     | CalledProcessError _ => ret []
     | TimeoutExpired => ret []
     | JSONDecodeError => ret []
     | _ => raise e
     end).

Definition fetch_vibe_tasks (api_url project_id : string) : M (list task) :=
try_except
  (resp ← requests_get (api_url +:+ "/api/tasks")
             [("project_id", project_id)] (Some 30);
   if status_code resp =? 200 then
     data ← json resp;
     if env_success data then ret (default [] (env_data data))
     else ret []
   else ret [])
  (fun e =>
     match e with
     | Timeout => ret []
     | _ => if is_RequestException e then ret [] else raise e
     end).

Definition create_vibe_task (api_url project_id title content : string) : M bool :=
try_except
  (resp ← requests_post (api_url +:+ "/api/tasks")
             (Payload title project_id content) (Some 30);
   if bool_decide (status_code resp ∈ [200; 201]) then ret true
   else ret false)
  (fun e =>
     match e with
     | Timeout => ret false
     | _ => if is_RequestException e then ret false else raise e
     end).

End Clients.

(** The first script, [main.py]: the same clients without time limits. *)
Module Main.
Section Clients.

Variable E : environment.

Definition fetch_github_issues (repo : string) : M (list issue) :=
try_except
(stdout ← subprocess_run E (gh_issue_list repo "50") None;
 loads E stdout)
(fun e =>
   match e with
   | CalledProcessError _ => ret []
   | JSONDecodeError => ret []
   | _ => raise e
   end).

Definition create_vibe_task (api_url project_id title content : string) : M bool :=
try_except
(resp ← requests_post E (api_url +:+ "/api/tasks")
           (Payload title project_id content) None;
 if bool_decide (status_code resp ∈ [200; 201]) then ret true
 else ret false)
(fun e => if is_RequestException e then ret false else raise e).

End Clients.
End Main.

(** ** Configuration *)

(** One entry of ["projects"]: a repository and the board project it feeds. *)
Record project := Project {
  github_repo : string;
  vibe_project_id : string
}.

(** [config.json]; every key may be missing. *)
Record config := Config {
  vibe_api_url : option string;
  sync_interval_seconds : option Z;
  issue_limit : option Z;
  projects : option (list project)
}.

(** Whether the loop of [run_sync] has returned when the fuel of the model
    ran out. *)
Inductive status :=
| Returned
| Running.

(** ** The sync loop *)

Section Sync.

Variable E : environment.

(** [detect_vibe_api]: the probing of ports is left to the environment. *)
Definition detect_vibe_api : M (option string) :=
t ← tick E EvDetect;
ret (detect_result E t).

Definition get_vibe_api_url (cfg : config) : M string :=
let configured_url := vibe_api_url cfg in
answered ←
  (if Py.truthy (Py.or_empty configured_url) then
     try_except
       (resp ← requests_get E (Py.or_empty configured_url +:+ "/api/projects") [] (Some 2);
        if status_code resp =? 200 then
          data ← json resp;
          ret (env_success data)
        else ret false)
       (fun e => if is_RequestException e then ret false else raise e)
   else ret false);
if answered : bool then ret (Py.or_empty configured_url)
else
  detected_url ← detect_vibe_api;
  if Py.truthy (Py.or_empty detected_url) then ret (Py.or_empty detected_url)
  else if Py.truthy (Py.or_empty configured_url) then ret (Py.or_empty configured_url)
  else ret "http://localhost:3000".

(** The sets after a task was created for [i]. *)
Definition track (sets : lookup) (i : issue) : lookup :=
Lookup ({[ issue_url i ]} ∪ existing_urls sets)
       ({[ Py.strip (issue_title i) ]} ∪ existing_titles sets).

(** One iteration of [for issue in gh_issues]. *)
Definition sync_issue (vibe_url vibe_proj_id : string) (sets : lookup)
  (i : issue) : M lookup :=
if is_duplicate sets i then ret sets
else
  success ← create_vibe_task E vibe_url vibe_proj_id (issue_title i)
              (new_task_content i);
  if success : bool then ret (track sets i) else ret sets.

Fixpoint issue_loop (vibe_url vibe_proj_id : string) (gh_issues : list issue)
  (sets : lookup) : M lookup :=
match gh_issues with
| [] => ret sets
| i :: rest =>
    sets' ← sync_issue vibe_url vibe_proj_id sets i;
    issue_loop vibe_url vibe_proj_id rest sets'
end.

(** The body of [for project in config.get("projects", [])] after the
  flag check. *)
Definition sync_project (vibe_url : string) (limit : Z) (p : project) : M unit :=
gh_issues ← fetch_github_issues E (github_repo p) limit;
vibe_tasks ← fetch_vibe_tasks E vibe_url (vibe_project_id p);
issue_loop vibe_url (vibe_project_id p) gh_issues (build_lookup vibe_tasks);;
ret tt.

Fixpoint project_loop (vibe_url : string) (limit : Z) (ps : list project) : M unit :=
match ps with
| [] => ret tt
| p :: rest =>
    stop ← read_flag E;
    if stop : bool then ret tt
    else sync_project vibe_url limit p;; project_loop vibe_url limit rest
end.

(** [for _ in range(sync_interval)] with its flag check and [time.sleep(1)]. *)
Fixpoint sleep_loop (n : nat) : M unit :=
match n with
| O => ret tt
| S n' =>
    stop ← read_flag E;
    if stop : bool then ret tt
    else sleep E 1;; sleep_loop n'
end.

(** [while not shutdown_requested]; each unit of fuel pays for one
  iteration. *)
Fixpoint while_loop (fuel : nat) (vibe_url : string) (limit sync_interval : Z)
  (ps : list project) (once : bool) : M status :=
match fuel with
| O => ret Running
| S fuel' =>
    stop ← read_flag E;
    if stop : bool then ret Returned
    else
      project_loop vibe_url limit ps;;
      if once then ret Returned
      else
        stop' ← read_flag E;
        (if stop' : bool then ret tt else sleep_loop (Z.to_nat sync_interval));;
        while_loop fuel' vibe_url limit sync_interval ps once
end.

(** [run_sync]; [install_signal_handlers] is what makes a delivered signal
  set the flag, which [advance] and [read_flag] account for.  The write
  of the detected URL into [config] is not read again and is left out. *)
Definition run_sync (cfg : config) (once : bool) (fuel : nat) : M status :=
vibe_url ← get_vibe_api_url cfg;
let sync_interval := default 60 (sync_interval_seconds cfg) in
let limit := default 100 (issue_limit cfg) in
while_loop fuel vibe_url limit sync_interval (default [] (projects cfg)) once.

(** *** [dry_run] *)

(** The loop over [vibe_tasks] in [dry_run]. *)
Definition dry_run_scan_task (sets : lookup) (t : task) : lookup :=
let content := Py.or_empty (task_content t) in
let title := default "" (task_title t) in
let titles :=
  if Py.truthy title then {[ Py.strip title ]} ∪ existing_titles sets
  else existing_titles sets in
let urls :=
  if Py.contains MARKER content then
    let url_start := Py.find content MARKER 0 + Py.len MARKER in
    let url_end := Py.find content Py.LF url_start in
    let url_end := if url_end =? -1 then Py.len content else url_end in
    let url := Py.strip (Py.slice content url_start url_end) in
    if Py.truthy url then {[ url ]} ∪ existing_urls sets else existing_urls sets
  else existing_urls sets in
let urls :=
  foldl (fun acc url => {[ Py.strip url ]} ∪ acc) urls (Re.findall_github content) in
Lookup urls titles.

(** [new_issues] of [dry_run]: the issues it would create. *)
Definition dry_run_new_issues (vibe_tasks : list task) (gh_issues : list issue)
  : list issue :=
let sets := foldl dry_run_scan_task empty_lookup vibe_tasks in
filter (fun i =>
          negb (bool_decide (issue_url i ∈ existing_urls sets)
                || bool_decide (Py.strip (issue_title i) ∈ existing_titles sets)))
       gh_issues.

(** [dry_run] prints, for each project, the issues it would create; the
  model returns them. *)
Fixpoint dry_run_projects (vibe_url : string) (limit : Z) (ps : list project)
  : M (list (list issue)) :=
match ps with
| [] => ret []
| p :: rest =>
    gh_issues ← fetch_github_issues E (github_repo p) limit;
    vibe_tasks ← fetch_vibe_tasks E vibe_url (vibe_project_id p);
    more ← dry_run_projects vibe_url limit rest;
    ret (dry_run_new_issues vibe_tasks gh_issues :: more)
end.

Definition dry_run (cfg : config) : M (list (list issue)) :=
vibe_url ← get_vibe_api_url cfg;
dry_run_projects vibe_url (default 100 (issue_limit cfg)) (default [] (projects cfg)).

End Sync.

(** ** Vocabulary of the statements *)



Fixpoint all_chars (p : ascii -> bool) (s : string) : bool :=
  match s with
  | EmptyString => true
  | String c s' => p c && all_chars p s'
  end.


(** A match of the pattern is the prefix and a non-empty run of
    characters that are neither white space nor [")"]. *)
Definition well_formed (u : string) : Prop :=
  exists run, u = Re.GITHUB_PREFIX +:+ run /\ run <> ""
              /\ all_chars Re.url_char run = true.

(** What one task contributes to [existing_urls]. *)
Definition url_of_task (t : task) (x : string) : Prop :=
  marker_url (Py.or_empty (task_content t)) = Some x
  \/ exists u, u ∈ Re.findall_github (Py.or_empty (task_content t))
               /\ x = Py.strip u.

(** What one task contributes to [existing_titles]. *)
Definition title_of_task (t : task) (x : string) : Prop :=
  Py.truthy (default "" (task_title t)) = true
  /\ x = Py.strip (default "" (task_title t)).






(** The answers of the board that are not a success: a status other than
    200, or an envelope with a false [success]. *)
Definition non_success (b : http_behaviour) : Prop :=
  (exists r, b = Responds r /\ status_code r <> 200)
  \/ (exists r data, b = Responds r /\ resp_json r = Some data
                     /\ env_success data = false).

Definition network_error (b : http_behaviour) : Prop :=
  b = TimesOut \/ b = ConnectionFails.

(** What the three clients return, read off the behaviour of their one call. *)
Definition post_ok (b : http_behaviour) : bool :=
  match b with
  | Responds r => bool_decide (status_code r ∈ [200; 201])
  | TimesOut | ConnectionFails => false
  end.

Definition tasks_of (b : http_behaviour) : list task :=
  match b with
  | Responds r =>
      if status_code r =? 200 then
        match resp_json r with
        | Some data => if env_success data then default [] (env_data data) else []
        | None => []
        end
      else []
  | TimesOut | ConnectionFails => []
  end.

Definition issues_of (E : environment) (timeout : option Z) (tb : tool_behaviour)
    : result (list issue) :=
  match tb with
  | LaunchFails => Raise OSError
  | Exits returncode stdout _ elapsed =>
      if timed_out timeout elapsed then Ok []
      else if returncode =? 0 then Ok (default [] (json_loads E stdout))
      else Ok []
  end.

(** The request [create_vibe_task] sends, and the one [fetch_vibe_tasks] sends. *)
Definition post_event (api_url project_id : string) (i : issue) : event :=
  EvPost (api_url +:+ "/api/tasks")
         (Payload (issue_title i) project_id (new_task_content i)) (Some 30).

Definition get_tasks_event (api_url project_id : string) : event :=
  EvGet (api_url +:+ "/api/tasks") [("project_id", project_id)] (Some 30).

Definition gh_event (repo : string) (limit : Z) : event :=
  EvSubprocess (gh_issue_list repo (pretty limit)) (Some 60).

(** ** Vocabulary of the traces *)

Definition is_post (ev : event) : bool :=
  match ev with
  | EvPost _ _ _ => true
  | _ => false
  end.


(** The first call of a mapping pass (the run of [gh]) or one second of
    sleep: what a pending shutdown must keep from starting. *)
Definition is_start (ev : event) : bool :=
  match ev with
  | EvSubprocess _ _ | EvSleep _ => true
  | _ => false
  end.

(** The events of [get_vibe_api_url]. *)
Definition is_setup (ev : event) : bool :=
  match ev with
  | EvGet _ _ _ | EvDetect => true
  | _ => false
  end.

(** Every start in [h] comes right after a read of the flag that found it
    unset. *)
Definition guarded (h : list event) : Prop :=
  forall k ev, h !! k = Some ev -> is_start ev = true ->
    exists j, k = S j /\ h !! j = Some (EvReadFlag false).

(** A signal was delivered at a moment below [n]. *)
Definition signalled (E : environment) (n : nat) : bool :=
  existsb (signal_at E) (seq 0 n).

(** Every read of the flag in [h] saw the signals delivered so far. *)
Definition flags_recorded (E : environment) (h : list event) : Prop :=
  forall k b, h !! k = Some (EvReadFlag b) -> b = signalled E (S k).

Definition sleeps_one_second (h : list event) : Prop :=
  forall k secs, h !! k = Some (EvSleep secs) -> secs = 1.

(** The invariant of the loop on the process state. *)
Record consistent (E : environment) (w : world) : Prop := Consistent {
  cons_guarded : guarded (history w);
  cons_flags : flags_recorded E (history w);
  cons_sleeps : sleeps_one_second (history w);
  cons_flag : shutdown_requested w = signalled E (length (history w))
}.

(** The events of one mapping pass: the flag check, the two fetches, then
    only creations. *)
Definition pass_of (vibe_url : string) (limit : Z) (p : project)
    (evs : list event) : Prop :=
  exists posts,
    evs = [EvReadFlag false; gh_event (github_repo p) limit;
           get_tasks_event vibe_url (vibe_project_id p)] ++ posts
    /\ Forall (fun ev => is_post ev = true) posts.

(** No SIGINT or SIGTERM is ever delivered. *)
Definition no_shutdown (E : environment) : Prop :=
  forall t, signal_at E t = false.

(** The [gh] executable can be started. *)
Definition tool_starts (E : environment) : Prop :=
  forall t cmd, tool E t cmd <> LaunchFails.

(** Whether the creation for [i] succeeds when it is attempted in [w]. *)
Definition created (E : environment) (vibe_url vibe_proj_id : string)
    (i : issue) (w : world) : bool :=
  post_ok (http_post E (length (history w)) (vibe_url +:+ "/api/tasks")
             (Payload (issue_title i) vibe_proj_id (new_task_content i))).

(** The process state after the calls [evs] were made from [w]: they are
    appended to the history, and the flag is set if a signal was delivered
    at one of their moments. *)
Definition grow (E : environment) (evs : list event) (w : world) : world :=
  World (history w ++ evs)
        (shutdown_requested w
         || existsb (signal_at E) (seq (length (history w)) (length evs))).

(** Events that are neither a start nor a read of the flag. *)
Definition is_quiet (ev : event) : bool :=
  match ev with
  | EvGet _ _ _ | EvPost _ _ _ | EvDetect => true
  | _ => false
  end.

(** ** Concrete inputs *)

Module Demo.

Definition api : string := "http://localhost:3000".

(** The scenario of the specification: a task made from issue 5. *)
Definition fix_bug_task : task :=
Task "t1" (Some "fix bug")
     (Some ("fix bug" +:+ Py.LF +:+ Py.LF
            +:+ "Original Issue: https://github.com/o/r/issues/5")) "p1".

Definition fix_bug_issue : issue :=
Issue 5 "fix bug" None "https://github.com/o/r/issues/5".

(** Two open issues with the same title. *)
Definition bug1 : issue :=
Issue 1 "Bug" (Some "first report") "https://github.com/o/r/issues/1".

Definition bug2 : issue :=
Issue 2 "Bug" (Some "second report") "https://github.com/o/r/issues/2".


Definition created_response : response := Response 201 "" None.

Definition tasks_response (ts : list task) : response :=
Response 200 "" (Some (Envelope true (Some ts))).


(** The output of [gh] is kept symbolic: [json_loads] maps ["[]"] to no
  issue and ["[bug1, bug2]"] to the two issues above. *)
Definition loads (s : string) : option (list issue) :=
if decide (s = "[]") then Some []
else if decide (s = "[bug1, bug2]") then Some [bug1; bug2]
else None.

(** No open issue, an empty board that accepts creations, no signal. *)
Definition idle : environment :=
{| tool := fun _ _ => Exits 0 "[]" "" 1;
   http_get := fun _ _ _ => Responds (tasks_response []);
   http_post := fun _ _ _ => Responds created_response;
   json_loads := loads;
   detect_result := fun _ => None;
   signal_at := fun _ => false |}.




(** As [idle], with a signal delivered at moment [t0]. *)
Definition interrupted (t0 : nat) : environment :=
{| tool := tool idle;
   http_get := http_get idle;
   http_post := http_post idle;
   json_loads := loads;
   detect_result := fun _ => None;
   signal_at := fun t => bool_decide (t = t0) |}.

Definition one_project : project := Project "o/r" "p1".

(** One mapping, polled every three seconds. *)
Definition every_three_seconds : config :=
Config (Some api) (Some 3) None (Some [one_project]).

Definition two_projects : config :=
Config (Some api) (Some 60) (Some 100)
       (Some [Project "o/r" "p1"; Project "o/s" "p2"]).

End Demo.

(** ** Further concrete inputs *)

Module Sample.

(** The task [run_sync] creates for an issue, its title edited since. *)
Definition made_from (i : issue) : task :=
Task "t9" (Some "edited on the board") (Some (new_task_content i)) "p1".

(** A task that kept the title of the issue, padded, and lost its content. *)
Definition retitled (i : issue) : task :=
Task "t8" (Some ("  " +:+ issue_title i +:+ " ")) None "p1".

(** As [Demo.idle], without the [gh] executable. *)
Definition no_gh : environment :=
{| tool := fun _ _ => LaunchFails;
   http_get := http_get Demo.idle;
   http_post := http_post Demo.idle;
   json_loads := Demo.loads;
   detect_result := fun _ => None;
   signal_at := fun _ => false |}.

(** An issue whose URL extends that of [Demo.bug1]. *)
Definition issue12 : issue :=
Issue 12 "Crash" None "https://github.com/o/r/issues/12".

(** Three open issues, the third one a second report of the first. *)
Definition bug1_again : issue :=
Issue 3 "Bug" None "https://github.com/o/r/issues/3".

End Sample.

(** ** Further vocabulary of the traces *)

(** Calls that change nothing on the board: the run of [gh], a GET, the
    detection of the port. *)
Definition is_read_only (ev : event) : bool :=
  match ev with
  | EvSubprocess _ _ | EvGet _ _ _ | EvDetect => true
  | _ => false
  end.

(** [gh] is not installed: no run of it can be started. *)
Definition tool_missing (E : environment) : Prop :=
  forall t cmd, tool E t cmd = LaunchFails.

(** ** More string primitives *)

Module Text.

(** [str.lower] on one character: A..Z and the accented capitals of
  Latin-1 (all of 192..222 but the multiplication sign) move up by 32. *)
Definition lower_char (c : ascii) : ascii :=
let n := N_of_ascii c in
if ((65 <=? n) && (n <=? 90)
    || (192 <=? n) && (n <=? 222) && negb (n =? 215))%N
then ascii_of_N (n + 32)
else c.

(** [s.lower()] *)
Fixpoint lower (s : string) : string :=
match s with
| EmptyString => EmptyString
| String c s' => String (lower_char c) (lower s')
end.

(** [s.split(sep)] for a separator of one character. *)
Fixpoint split (sep : ascii) (s : string) : list string :=
match s with
| EmptyString => [EmptyString]
| String c s' =>
    if Ascii.eqb c sep then EmptyString :: split sep s'
    else match split sep s' with
         | [] => [String c EmptyString]
         | word :: words => String c word :: words
         end
end.

End Text.

(** ** [select_projects_interactive] *)

Section Select.

(** [int(x)] of Python, [None] when it raises [ValueError]. *)
Variable py_int : string -> option Z.

(** [[int(x.strip()) - 1 for x in selection.split(",")]]; [None] when one
  of the conversions raises. *)
Definition selection_indices (selection : string) : option (list Z) :=
mapM (fun x => (fun n => n - 1) <$> py_int (Py.strip x))
     (Text.split ","%char selection).

(** [[projects[i] for i in indices if 0 <= i < len(projects)]] *)
Definition selected_projects (ps : list project) (indices : list Z) : list project :=
omap (fun i =>
        if (0 <=? i) && (i <? Z.of_nat (length ps)) then ps !! Z.to_nat i
        else None)
     indices.

(** [answer] is the line [input] returns; it is read only when more than
  one project is configured.  The result is [None] for Python's [None]. *)
Definition select_projects_interactive (answer : string) (cfg : config)
  : option config :=
match default [] (projects cfg) with
| [] => None
| [_] => Some cfg
| ps =>
    let selection := Py.strip answer in
    if bool_decide (selection = "0") || bool_decide (selection = "") then Some cfg
    else
      match selection_indices selection with
      | None => Some cfg
      | Some indices =>
          match selected_projects ps indices with
          | [] => Some cfg
          | selected =>
              Some (Config (vibe_api_url cfg) (sync_interval_seconds cfg)
                           (issue_limit cfg) (Some selected))
          end
      end
end.

End Select.

(** ** [clear_tasks.py] and [delete_task] *)

Module ClearTasks.

(** A key of a JSON object that holds a string: missing, null or present. *)
Inductive field :=
| Absent
| Null
| Str (s : string).

Global Instance field_eq_dec : EqDecision field.
Proof. solve_decision. Defined.

(** A task as the board lists it. *)
Record board_task := BoardTask {
bt_id : field;
bt_title : field;
bt_content : field;
bt_project_id : field
}.

Record listing := Listing {
listing_success : bool;
listing_data : option (list board_task)
}.

(** A response; [reply_json] is [None] when the body is not JSON. *)
Record reply := Reply {
reply_status : Z;
reply_json : option listing
}.

(** The board answers, or [requests] raises a [RequestException]. *)
Inductive answer :=
| Replies (r : reply)
| Errors.

(** What the utility does to the outside: requests and prompts. *)
Inductive call :=
| Get (url : string)
| Delete (url : string)
| Input (prompt : string).

(** The outside, asked at the moment of each call (the number of calls
  before it). *)
Record board := Board {
on_get : nat -> string -> answer;
on_delete : nat -> string -> answer;
on_input : nat -> string -> string
}.

(** The command line of [clear_tasks.py]. *)
Record args := Args {
arg_project_id : option string;
arg_dry_run : bool;
arg_filter : option string
}.

(** How [main] ends: [return code] or [sys.exit(code)], or the
  [AttributeError] of [None.lower()]. *)
Inductive outcome :=
| Exit (code : Z)
| RaisesAttributeError.

Section Utility.

Variable B : board.

Definition fetch_tasks (api_url project_id : string) (tr : list call)
: list board_task * list call :=
let url := api_url +:+ "/api/tasks" in
let tr' := tr ++ [Get url] in
match on_get B (length tr) url with
| Replies r =>
  if reply_status r =? 200 then
    match reply_json r with
    | Some data =>
        if listing_success data then
          (filter (fun t => bt_project_id t = Str project_id)
                  (default [] (listing_data data)), tr')
        else ([], tr')
    | None => ([], tr')
    end
  else ([], tr')
| Errors => ([], tr')
end.

(** [delete_task], the same in [clear_tasks.py] and [vibe_gh_sync.py]. *)
Definition delete_task (api_url task_id : string) (tr : list call)
: bool * list call :=
let url := api_url +:+ "/api/tasks/" +:+ task_id in
let tr' := tr ++ [Delete url] in
match on_delete B (length tr) url with
| Replies r => (bool_decide (reply_status r ∈ [200; 204]), tr')
| Errors => (false, tr')
end.

(** The condition of the filter on one task; [None] when it raises. *)
Definition wanted (flt : string) (t : board_task) : option bool :=
let content :=
match bt_content t with
| Str s => s
| Absent | Null => ""
end in
match bt_title t with
| Null => None
| Absent =>
  Some (Py.contains (Text.lower flt) (Text.lower "")
        || Py.contains (Text.lower flt) (Text.lower content))
| Str title =>
  Some (Py.contains (Text.lower flt) (Text.lower title)
        || Py.contains (Text.lower flt) (Text.lower content))
end.

(** The list comprehension of the filter. *)
Fixpoint select_tasks (flt : string) (tasks : list board_task)
: option (list board_task) :=
match tasks with
| [] => Some []
| t :: rest =>
  match wanted flt t with
  | None => None
  | Some keep =>
      match select_tasks flt rest with
      | None => None
      | Some kept => Some (if keep then t :: kept else kept)
      end
  end
end.

(** The loop that deletes; the number is the [deleted] it prints. *)
Fixpoint delete_all (api_url : string) (tasks : list board_task)
(tr : list call) : nat * list call :=
match tasks with
| [] => (0%nat, tr)
| t :: rest =>
  match bt_id t with
  | Str task_id =>
      if Py.truthy task_id then
        let '(ok, tr1) := delete_task api_url task_id tr in
        let '(deleted, tr2) := delete_all api_url rest tr1 in
        ((if ok then S deleted else deleted), tr2)
      else delete_all api_url rest tr
  | Absent | Null => delete_all api_url rest tr
  end
end.

Definition confirm_prompt (n : nat) : string :=
Py.LF +:+ "Delete " +:+ pretty n +:+ " task(s)? [y/N]: ".

(** [main]; [cfg] is [None] when [config.json] does not exist. *)
Definition main (a : args) (cfg : option config) (tr : list call)
: outcome * list call :=
match cfg with
| None => (Exit 1, tr)
| Some cfg =>
  let api_url := default "http://localhost:3000" (vibe_api_url cfg) in
  let project_id := Py.or_empty (arg_project_id a) in
  if negb (Py.truthy project_id) then (Exit 0, tr)
  else
    let '(tasks, tr1) := fetch_tasks api_url project_id tr in
    match tasks with
    | [] => (Exit 0, tr1)
    | _ =>
        let flt := Py.or_empty (arg_filter a) in
        match (if Py.truthy flt then select_tasks flt tasks else Some tasks) with
        | None => (RaisesAttributeError, tr1)
        | Some [] => (Exit 0, tr1)
        | Some chosen =>
            if arg_dry_run a then (Exit 0, tr1)
            else
              let prompt := confirm_prompt (length chosen) in
              let response := Py.strip (on_input B (length tr1) prompt) in
              let tr2 := tr1 ++ [Input prompt] in
              if bool_decide (Text.lower response = "y") then
                (Exit 0, (delete_all api_url chosen tr2).2)
              else (Exit 0, tr2)
        end
    end
end.

End Utility.

(** The requests the deleting loop sends: one per task with a non-empty id. *)
Definition targets (api_url : string) (tasks : list board_task) : list string :=
omap (fun t => match bt_id t with
               | Str task_id =>
                   if Py.truthy task_id
                   then Some (api_url +:+ "/api/tasks/" +:+ task_id)
                   else None
               | Absent | Null => None
               end) tasks.

(** The DELETE requests among some calls. *)
Definition deletes (calls : list call) : list string :=
omap (fun c => match c with Delete url => Some url | _ => None end) calls.

(** The request [main] may send for a task: it belongs to the project,
  carries a non-empty id, and passes the filter when one is given. *)
Definition deletable (api_url project_id flt : string) (t : board_task)
  (url : string) : Prop :=
bt_project_id t = Str project_id
/\ (exists task_id, bt_id t = Str task_id /\ task_id <> ""
                    /\ url = api_url +:+ "/api/tasks/" +:+ task_id)
/\ (flt <> "" -> wanted flt t = Some true).

(** What the board listed in answer to the GET. *)
Definition listed (b : answer) : list board_task :=
match b with
| Replies r =>
    match reply_json r with
    | Some data => default [] (listing_data data)
    | None => []
    end
| Errors => []
end.

End ClearTasks.

(** ** Sample boards for the utility *)

Module SampleBoard.
Import ClearTasks.

Definition kept : board_task :=
BoardTask (Str "a1") (Str "Fix the Login page") (Str "details") (Str "p1").

Definition other_project : board_task :=
BoardTask (Str "b1") (Str "Login elsewhere") Absent (Str "p2").

Definition without_id : board_task :=
BoardTask Absent (Str "login draft") Null (Str "p1").

(** A board that lists three tasks, deletes what it is asked to, and a
  user who answers ["Y "]. *)
Definition willing : board :=
{| on_get := fun _ _ =>
     Replies (Reply 200 (Some (Listing true
                                 (Some [kept; other_project; without_id]))));
   on_delete := fun _ _ => Replies (Reply 204 None);
   on_input := fun _ _ => "Y " |}.

Definition login_args : args := Args (Some "p1") false (Some "LOGIN").

Definition local_config : config := Config None None None None.

End SampleBoard.

(** ** Sample answers to the selection prompt *)

Module SampleSelect.

(** A reader of the one-digit numbers, enough for the samples. *)
Definition digit (s : string) : option Z :=
if bool_decide (s = "1") then Some 1
else if bool_decide (s = "2") then Some 2
else if bool_decide (s = "3") then Some 3
else None.

Definition three_projects : config :=
Config (Some Demo.api) None None
       (Some [Project "o/r" "p1"; Project "o/s" "p2"; Project "o/t" "p3"]).

End SampleSelect.

(** ** One pass of [main.py] *)

Module MainPass.

Section Pass.

Variable E : environment.

(** [fetch_vibe_tasks] of [main.py]: all the tasks of the board, kept when
their [project_id] is the one asked for. *)
Definition fetch_vibe_tasks (api_url project_id : string) : M (list task) :=
try_except
(resp ← requests_get E (api_url +:+ "/api/tasks") [] None;
 if status_code resp =? 200 then
   data ← json resp;
   if env_success data then
     ret (filter (fun t => task_project_id t = project_id)
                 (default [] (env_data data)))
   else ret []
 else ret [])
(fun e => if is_RequestException e then ret [] else raise e).

(** [existing_contents] and [existing_titles] of [main]. *)
Definition existing_contents (vibe_tasks : list task) : gset string :=
list_to_set ((fun t => Py.or_empty (task_content t)) <$> vibe_tasks).

Definition existing_titles (vibe_tasks : list task) : gset (option string) :=
list_to_set (task_title <$> vibe_tasks).

(** The check of [main]: the exact title, else the URL somewhere in the
content of a task. *)
Definition is_duplicate (titles : gset (option string)) (contents : gset string)
(i : issue) : bool :=
if bool_decide (Some (issue_title i) ∈ titles) then true
else existsb (fun content => Py.contains (issue_url i) content) (elements contents).

Fixpoint issue_loop (vibe_url vibe_proj_id : string) (titles : gset (option string))
(contents : gset string) (gh_issues : list issue) : M unit :=
match gh_issues with
| [] => ret tt
| i :: rest =>
  (if is_duplicate titles contents i then ret tt
   else
     Main.create_vibe_task E vibe_url vibe_proj_id (issue_title i)
       (new_task_content i);;
     ret tt);;
  issue_loop vibe_url vibe_proj_id titles contents rest
end.

(** The body of [for project in config.get('projects', [])]. *)
Definition sync_project (vibe_url : string) (p : project) : M unit :=
gh_issues ← Main.fetch_github_issues E (github_repo p);
vibe_tasks ← fetch_vibe_tasks vibe_url (vibe_project_id p);
issue_loop vibe_url (vibe_project_id p) (existing_titles vibe_tasks)
(existing_contents vibe_tasks) gh_issues.

End Pass.

(** The request [create_vibe_task] of [main.py] sends for an issue. *)
Definition post_event (api_url project_id : string) (i : issue) : event :=
EvPost (api_url +:+ "/api/tasks")
       (Payload (issue_title i) project_id (new_task_content i)) None.

End MainPass.

(** [u] occurs in [s]. *)
Definition occurs (u s : string) : Prop :=
  exists l r, s = l +:+ u +:+ r.

(** The events of one iteration of the [while] of [run_sync] that ends
    with its sleep: the check of the [while], one pass per mapping, the
    check before the sleep, then [seconds] rounds of a check and one
    second. *)
Definition cycle_of (vibe_url : string) (limit : Z) (ps : list project)
    (seconds : nat) (evs : list event) : Prop :=
  exists passes,
    evs = EvReadFlag false :: concat passes
          ++ EvReadFlag false
          :: concat (replicate seconds [EvReadFlag false; EvSleep 1])
    /\ Forall2 (pass_of vibe_url limit) ps passes.

Example ex_marker :
  marker_url ("Some body text" +:+ Py.LF +:+ Py.LF
              +:+ "Original Issue: https://github.com/org/repo/issues/123")
  = Some "https://github.com/org/repo/issues/123".
Proof. vm_compute. reflexivity. Qed.

Example ex_findall :
  Re.findall_github "see (https://github.com/o/r/issues/5) and https://github.com/a/b x"
  = ["https://github.com/o/r/issues/5"; "https://github.com/a/b"].
Proof. vm_compute. reflexivity. Qed.


(** * Properties *)

(** ** Strings *)

Module PyFacts.

Lemma app_empty (s : string) : "" +:+ s = s.
Proof. reflexivity. Qed.

Lemma app_cons (c : ascii) (a s : string) : String c a +:+ s = String c (a +:+ s).
Proof. reflexivity. Qed.

Lemma length_app (a b : string) :
String.length (a +:+ b) = (String.length a + String.length b)%nat.
Proof. induction a as [|c a IH]; [reflexivity|]. rewrite app_cons. simpl. by rewrite IH. Qed.

Lemma substring_skip (a b : string) (n m : nat) :
String.substring (String.length a + n) m (a +:+ b) = String.substring n m b.
Proof. induction a as [|c a IH]; [reflexivity|]. rewrite app_cons. simpl. apply IH. Qed.

Lemma substring_take (a b : string) :
String.substring 0 (String.length a) (a +:+ b) = a.
Proof.
induction a as [|c a IH]; [by destruct b|].
rewrite app_cons. simpl. by rewrite IH.
Qed.

Lemma substring_all (a : string) :
String.substring 0 (String.length a) a = a.
Proof. induction a as [|c a IH]; [reflexivity|]. simpl. by rewrite IH. Qed.








Lemma rstrip_id (s : string) :
all_chars (fun c => negb (Py.isspace c)) s = true -> Py.rstrip s = s.
Proof.
induction s as [|c s IH]; [done|].
simpl. intros [Hc Hs]%andb_prop. rewrite (IH Hs).
apply negb_true_iff in Hc. rewrite Hc. by destruct s.
Qed.

Lemma lstrip_id (s : string) :
all_chars (fun c => negb (Py.isspace c)) s = true -> Py.lstrip s = s.
Proof.
destruct s as [|c s]; [done|].
simpl. intros [Hc _]%andb_prop. apply negb_true_iff in Hc. by rewrite Hc.
Qed.

(** Stripping a string without white space changes nothing. *)
Lemma strip_id (s : string) :
all_chars (fun c => negb (Py.isspace c)) s = true -> Py.strip s = s.
Proof. intros H. unfold Py.strip. rewrite (lstrip_id s H). by apply rstrip_id. Qed.

Lemma all_chars_app (p : ascii -> bool) (a b : string) :
all_chars p (a +:+ b) = all_chars p a && all_chars p b.
Proof.
induction a as [|c a IH]; [done|].
rewrite app_cons. simpl. rewrite IH. by rewrite andb_assoc.
Qed.

Lemma all_chars_take_while (p : ascii -> bool) (s : string) :
all_chars p (Py.take_while p s) = true.
Proof.
induction s as [|c s IH]; [done|].
simpl. destruct (p c) eqn:Hc; [|done]. simpl. by rewrite Hc.
Qed.

Lemma all_chars_weaken (p q : ascii -> bool) (s : string) :
(forall c, p c = true -> q c = true) ->
all_chars p s = true -> all_chars q s = true.
Proof.
intros Hpq. induction s as [|c s IH]; [done|].
simpl. intros [Hc Hs]%andb_prop. by rewrite (Hpq c Hc), (IH Hs).
Qed.

End PyFacts.

(** ** The sets built from the tasks *)

Module Detector.
Import PyFacts.

Lemma app_assoc (a b c : string) : (a +:+ b) +:+ c = a +:+ b +:+ c.
Proof. induction a as [|x a IH]; [done|]. by rewrite !app_cons, IH. Qed.

Lemma app_empty_r (a : string) : a +:+ "" = a.
Proof. induction a as [|x a IH]; [done|]. by rewrite app_cons, IH. Qed.




Lemma match_here_well_formed (s m : string) :
Re.match_here s = Some m -> well_formed m.
Proof.
unfold Re.match_here. destruct (String.prefix _ _); [|done].
destruct (Py.take_while _ _) as [|c run] eqn:Hrun; [done|].
intros [= <-]. exists (String c run). split_and!; [done..|].
rewrite <- Hrun. apply all_chars_take_while.
Qed.

Lemma findall_from_well_formed (s : string) (skip : nat) (m : string) :
m ∈ Re.findall_from skip s -> well_formed m.
Proof.
revert skip. induction s as [|c s IH]; intros skip; [by intros ?%elem_of_nil|].
cbn [Re.findall_from]. destruct skip as [|k]; [|by apply IH].
destruct (Re.match_here (String c s)) as [m'|] eqn:Hm; [|by apply IH].
intros [->|Hin]%elem_of_cons; [|by eapply IH].
by eapply match_here_well_formed.
Qed.

Lemma well_formed_no_space (u : string) :
well_formed u -> all_chars (fun c => negb (Py.isspace c)) u = true.
Proof.
intros (run & -> & _ & Hrun). rewrite all_chars_app.
apply andb_true_intro. split; [by vm_compute|].
eapply all_chars_weaken; [|done].
unfold Re.url_char. by intros c [? _]%andb_prop.
Qed.

(** The [strip] applied to a match is the identity. *)
Lemma findall_strip (content u : string) :
u ∈ Re.findall_github content -> Py.strip u = u.
Proof.
intros Hu. apply strip_id, well_formed_no_space.
by eapply findall_from_well_formed.
Qed.

Lemma elem_of_foldl_add (f : string -> string) (l : list string)
  (init : gset string) (x : string) :
x ∈ foldl (fun acc u => {[ f u ]} ∪ acc) init l
<-> x ∈ init \/ exists u, u ∈ l /\ x = f u.
Proof.
revert init. induction l as [|u l IH]; intros init; simpl.
- split; [by left|]. intros [?|(u & ?%elem_of_nil & _)]; done.
- rewrite IH. set_solver.
Qed.

Lemma scan_task_urls (sets : lookup) (t : task) (x : string) :
x ∈ existing_urls (scan_task sets t)
<-> x ∈ existing_urls sets \/ url_of_task t x.
Proof.
unfold scan_task, url_of_task. cbn [existing_urls].
rewrite elem_of_foldl_add.
destruct (marker_url _) as [url|]; set_solver.
Qed.

Lemma scan_task_titles (sets : lookup) (t : task) (x : string) :
x ∈ existing_titles (scan_task sets t)
<-> x ∈ existing_titles sets \/ title_of_task t x.
Proof.
unfold scan_task, title_of_task. cbn [existing_titles].
destruct (Py.truthy _); set_solver.
Qed.

Lemma foldl_scan_urls (tasks : list task) (sets : lookup) (x : string) :
x ∈ existing_urls (foldl scan_task sets tasks)
<-> x ∈ existing_urls sets \/ exists t, t ∈ tasks /\ url_of_task t x.
Proof.
revert sets. induction tasks as [|t tasks IH]; intros sets; simpl.
- set_solver.
- rewrite IH, scan_task_urls. set_solver.
Qed.

Lemma foldl_scan_titles (tasks : list task) (sets : lookup) (x : string) :
x ∈ existing_titles (foldl scan_task sets tasks)
<-> x ∈ existing_titles sets \/ exists t, t ∈ tasks /\ title_of_task t x.
Proof.
revert sets. induction tasks as [|t tasks IH]; intros sets; simpl.
- set_solver.
- rewrite IH, scan_task_titles. set_solver.
Qed.

(** The URL set holds exactly what the tasks contribute. *)
Lemma build_lookup_urls (tasks : list task) (x : string) :
x ∈ existing_urls (build_lookup tasks)
<-> exists t, t ∈ tasks /\ url_of_task t x.
Proof. unfold build_lookup. rewrite foldl_scan_urls. set_solver. Qed.

(** The title set holds the stripped non-empty titles of the tasks. *)
Lemma build_lookup_titles (tasks : list task) (x : string) :
x ∈ existing_titles (build_lookup tasks)
<-> exists t, t ∈ tasks /\ title_of_task t x.
Proof. unfold build_lookup. rewrite foldl_scan_titles. set_solver. Qed.



End Detector.

(** ** The three clients *)

Module ClientFacts.

Ltac run_monad :=
unfold mbind, M_bind, bind, try_except, raise, raise_http, ret, tick in *;
cbn beta iota zeta in *.

Section Clients.

Variable E : environment.

Lemma create_vibe_task_run (api_url project_id title content : string) (w : world) :
create_vibe_task E api_url project_id title content w
= (Ok (post_ok (http_post E (length (history w)) (api_url +:+ "/api/tasks")
                (Payload title project_id content))),
 advance E (EvPost (api_url +:+ "/api/tasks")
              (Payload title project_id content) (Some 30)) w).
Proof.
unfold create_vibe_task, requests_post. run_monad.
destruct (http_post E _ _ _) as [r| |]; cbn; [|done..].
by destruct (bool_decide _).
Qed.

Lemma main_create_vibe_task_run (api_url project_id title content : string) (w : world) :
Main.create_vibe_task E api_url project_id title content w
= (Ok (post_ok (http_post E (length (history w)) (api_url +:+ "/api/tasks")
                (Payload title project_id content))),
 advance E (EvPost (api_url +:+ "/api/tasks")
              (Payload title project_id content) None) w).
Proof.
unfold Main.create_vibe_task, requests_post. run_monad.
destruct (http_post E _ _ _) as [r| |]; cbn; [|done..].
by destruct (bool_decide _).
Qed.

Lemma fetch_vibe_tasks_run (api_url project_id : string) (w : world) :
fetch_vibe_tasks E api_url project_id w
= (Ok (tasks_of (http_get E (length (history w)) (api_url +:+ "/api/tasks")
                 [("project_id", project_id)])),
 advance E (get_tasks_event api_url project_id) w).
Proof.
unfold fetch_vibe_tasks, requests_get, json, get_tasks_event. run_monad.
destruct (http_get E _ _ _) as [r| |]; cbn; [|done..].
destruct (status_code r =? 200); [|done].
destruct (resp_json r) as [data|]; cbn; [|done].
by destruct (env_success data).
Qed.

Lemma fetch_github_issues_run (repo : string) (limit : Z) (w : world) :
fetch_github_issues E repo limit w
= (issues_of E (Some 60)
   (tool E (length (history w)) (gh_issue_list repo (pretty limit))),
 advance E (gh_event repo limit) w).
Proof.
unfold fetch_github_issues, subprocess_run, loads, gh_event, issues_of. run_monad.
destruct (tool E _ _) as [rc out err elapsed|]; cbn; [|done].
destruct (60 <? elapsed); [done|].
destruct (rc =? 0); [|done].
by destruct (json_loads E out).
Qed.


End Clients.

End ClientFacts.

(** ** The process state *)

Module WorldFacts.

Section World.

Variable E : environment.

Lemma grow_nil (w : world) : grow E [] w = w.
Proof. unfold grow. cbn. rewrite app_nil_r, orb_false_r. by destruct w. Qed.

Lemma grow_cons (ev : event) (evs : list event) (w : world) :
grow E (ev :: evs) w = grow E evs (advance E ev w).
Proof.
unfold grow, advance. cbn [history shutdown_requested length seq existsb].
rewrite <- app_assoc, length_app, Nat.add_1_r, orb_assoc. done.
Qed.

Lemma grow_one (ev : event) (w : world) : grow E [ev] w = advance E ev w.
Proof. by rewrite grow_cons, grow_nil. Qed.

Lemma grow_app (evs1 evs2 : list event) (w : world) :
grow E (evs1 ++ evs2) w = grow E evs2 (grow E evs1 w).
Proof.
revert w. induction evs1 as [|ev evs1 IH]; intros w.
- by rewrite grow_nil.
- cbn [app]. by rewrite !grow_cons, IH.
Qed.

End World.

End WorldFacts.

(** ** The loop over the issues *)

Module IssueFacts.
Import ClientFacts WorldFacts.

Lemma is_duplicate_spec (sets : lookup) (i : issue) :
is_duplicate sets i = true
<-> issue_url i ∈ existing_urls sets
    \/ Py.strip (issue_title i) ∈ existing_titles sets.
Proof.
unfold is_duplicate. rewrite orb_true_iff, !bool_decide_eq_true. done.
Qed.

Lemma is_duplicate_false (sets : lookup) (i : issue) :
is_duplicate sets i = false
<-> (issue_url i ∉ existing_urls sets)
    /\ (Py.strip (issue_title i) ∉ existing_titles sets).
Proof.
unfold is_duplicate. rewrite orb_false_iff, !bool_decide_eq_false. done.
Qed.

Lemma track_urls (sets : lookup) (i : issue) :
existing_urls sets ⊆ existing_urls (track sets i).
Proof. unfold track. cbn. set_solver. Qed.

Lemma track_titles (sets : lookup) (i : issue) :
existing_titles sets ⊆ existing_titles (track sets i).
Proof. unfold track. cbn. set_solver. Qed.


Section Loop.

Variable E : environment.
Variables vibe_url vibe_proj_id : string.

Lemma sync_issue_run (sets : lookup) (i : issue) (w : world) :
sync_issue E vibe_url vibe_proj_id sets i w
= if is_duplicate sets i then (Ok sets, w)
else (Ok (if created E vibe_url vibe_proj_id i w then track sets i else sets),
      advance E (post_event vibe_url vibe_proj_id i) w).
Proof.
unfold sync_issue. destruct (is_duplicate sets i); [done|].
unfold mbind, M_bind, bind. rewrite create_vibe_task_run.
fold (created E vibe_url vibe_proj_id i w). by destruct (created E vibe_url vibe_proj_id i w).
Qed.

Lemma issue_loop_cons (i : issue) (rest : list issue) (sets : lookup) (w : world) :
issue_loop E vibe_url vibe_proj_id (i :: rest) sets w
= if is_duplicate sets i then issue_loop E vibe_url vibe_proj_id rest sets w
else issue_loop E vibe_url vibe_proj_id rest
       (if created E vibe_url vibe_proj_id i w then track sets i else sets)
       (advance E (post_event vibe_url vibe_proj_id i) w).
Proof.
cbn [issue_loop]. unfold mbind, M_bind, bind. rewrite sync_issue_run.
by destruct (is_duplicate sets i).
Qed.

(** The loop never raises; it only adds to the sets and only posts. *)
Lemma issue_loop_run (issues : list issue) (sets : lookup) (w : world) :
exists sets' posts,
issue_loop E vibe_url vibe_proj_id issues sets w
= (Ok sets', grow E posts w)
/\ Forall (fun ev => is_post ev = true) posts
/\ existing_urls sets ⊆ existing_urls sets'
/\ existing_titles sets ⊆ existing_titles sets'.
Proof.
revert sets w. induction issues as [|i rest IH]; intros sets w.
- exists sets, []. split_and!; [|done..].
cbn [issue_loop]. by rewrite grow_nil.
- rewrite issue_loop_cons. destruct (is_duplicate sets i); [apply IH|].
destruct (IH (if created E vibe_url vibe_proj_id i w then track sets i else sets)
             (advance E (post_event vibe_url vibe_proj_id i) w))
  as (sets' & posts & -> & Hposts & Hurls & Htitles).
exists sets', (post_event vibe_url vibe_proj_id i :: posts).
split_and!.
+ by rewrite grow_cons.
+ by constructor.
+ destruct (created E vibe_url vibe_proj_id i w); [|done]. etrans; [apply track_urls|done].
+ destruct (created E vibe_url vibe_proj_id i w); [|done]. etrans; [apply track_titles|done].
Qed.



End Loop.

End IssueFacts.

(** ** The polling loop *)

Module LoopFacts.
Import ClientFacts WorldFacts IssueFacts.

Section Loop.

Variable E : environment.

Lemma signalled_S (n : nat) :
signalled E (S n) = signalled E n || signal_at E n.
Proof.
unfold signalled. rewrite seq_S, existsb_app. cbn. by rewrite orb_false_r.
Qed.

Lemma signalled_mono (n m : nat) :
(n <= m)%nat -> signalled E n = true -> signalled E m = true.
Proof.
induction 1 as [|m _ IH]; [done|].
intros Hn. by rewrite signalled_S, (IH Hn).
Qed.

Lemma signalled_at (t : nat) : signal_at E t = true -> signalled E (S t) = true.
Proof. intros Ht. rewrite signalled_S, Ht. apply orb_true_r. Qed.

Lemma consistent_initial : consistent E initial_world.
Proof. split; cbn; [intros k ev [=]..|done]. Qed.

(** A read of the flag returns the flag as the signals delivered so far
have left it, and records it. *)
Lemma read_flag_run (w : world) :
read_flag E w
= (Ok (shutdown_requested w || signal_at E (length (history w))),
 advance E (EvReadFlag (shutdown_requested w
                        || signal_at E (length (history w)))) w).
Proof. done. Qed.

Lemma consistent_read (w : world) :
consistent E w ->
consistent E (advance E (EvReadFlag (shutdown_requested w
                                   || signal_at E (length (history w)))) w).
Proof.
intros [Hg Hf Hs Hflag]. unfold advance. split; cbn [history shutdown_requested].
- intros k ev [[Hk Hin]|[-> <-]]%lookup_snoc_Some; [|done].
intros Hstart. destruct (Hg k ev Hin Hstart) as (j & -> & Hj).
exists j. split; [done|]. by apply lookup_app_l_Some.
- intros k b [[Hk Hin]|[-> [= <-]]]%lookup_snoc_Some; [by apply Hf|].
by rewrite signalled_S, Hflag.
- intros k secs [[Hk Hin]|[-> ?]]%lookup_snoc_Some; [by eapply Hs|done].
- by rewrite length_app, Nat.add_1_r, signalled_S, Hflag.
Qed.

Lemma consistent_quiet (ev : event) (w : world) :
is_quiet ev = true -> consistent E w -> consistent E (advance E ev w).
Proof.
intros Hq [Hg Hf Hs Hflag]. unfold advance. split; cbn [history shutdown_requested].
- intros k ev' [[Hk Hin]|[-> <-]]%lookup_snoc_Some.
+ intros Hstart. destruct (Hg k ev' Hin Hstart) as (j & -> & Hj).
  exists j. split; [done|]. by apply lookup_app_l_Some.
+ by destruct ev.
- intros k b [[Hk Hin]|[-> ->]]%lookup_snoc_Some; [by apply Hf|done].
- intros k secs [[Hk Hin]|[-> ->]]%lookup_snoc_Some; [by eapply Hs|done].
- by rewrite length_app, Nat.add_1_r, signalled_S, Hflag.
Qed.

Lemma consistent_grow_quiet (evs : list event) (w : world) :
Forall (fun ev => is_quiet ev = true) evs ->
consistent E w -> consistent E (grow E evs w).
Proof.
intros Hevs. revert w. induction Hevs as [|ev evs Hev _ IH]; intros w Hw.
- by rewrite grow_nil.
- rewrite grow_cons. by apply IH, consistent_quiet.
Qed.

(** A start right after a read that found the flag unset. *)
Lemma consistent_start (ev : event) (w : world) :
(forall b, ev <> EvReadFlag b) ->
(forall secs, ev = EvSleep secs -> secs = 1) ->
last (history w) = Some (EvReadFlag false) ->
consistent E w -> consistent E (advance E ev w).
Proof.
intros Hnoflag Hsleep Hlast [Hg Hf Hs Hflag].
unfold advance. split; cbn [history shutdown_requested].
- intros k ev' [[Hk Hin]|[-> <-]]%lookup_snoc_Some.
+ intros Hstart. destruct (Hg k ev' Hin Hstart) as (j & -> & Hj).
  exists j. split; [done|]. by apply lookup_app_l_Some.
+ intros _. apply last_Some in Hlast as [h Hh]. rewrite Hh.
  exists (length h). split; [by rewrite length_app, Nat.add_1_r|].
  apply lookup_app_l_Some. by apply list_lookup_middle.
- intros k b [[Hk Hin]|[-> Hev]]%lookup_snoc_Some; [by apply Hf|].
by destruct (Hnoflag b).
- intros k secs [[Hk Hin]|[-> Hev]]%lookup_snoc_Some; [by eapply Hs|].
by apply Hsleep.
- by rewrite length_app, Nat.add_1_r, signalled_S, Hflag.
Qed.

Lemma last_advance (ev : event) (w : world) :
last (history (advance E ev w)) = Some ev.
Proof. unfold advance. cbn. apply last_snoc. Qed.

Lemma is_post_quiet (evs : list event) :
Forall (fun ev => is_post ev = true) evs ->
Forall (fun ev => is_quiet ev = true) evs.
Proof. intros H. eapply Forall_impl; [done|]. by intros []. Qed.

Lemma is_setup_quiet (evs : list event) :
Forall (fun ev => is_setup ev = true) evs ->
Forall (fun ev => is_quiet ev = true) evs.
Proof. intros H. eapply Forall_impl; [done|]. by intros []. Qed.

Ltac setup_leaf :=
eexists _, _; split;
[ first [ rewrite <- grow_one; reflexivity
      | rewrite <- grow_one, <- grow_cons; reflexivity
      | rewrite <- grow_nil at 1; reflexivity ]
| repeat constructor ].

(** [get_vibe_api_url] never raises and only probes the board. *)
Lemma get_vibe_api_url_run (cfg : config) (w : world) :
exists vibe_url evs,
get_vibe_api_url E cfg w = (Ok vibe_url, grow E evs w)
/\ Forall (fun ev => is_setup ev = true) evs.
Proof.
unfold get_vibe_api_url, detect_vibe_api, requests_get, json. run_monad.
destruct (Py.truthy (Py.or_empty (vibe_api_url cfg))) eqn:Hcfg.
- destruct (http_get E _ _ _) as [r| |]; cbn.
+ destruct (status_code r =? 200); cbn.
  * destruct (resp_json r) as [data|]; cbn.
    -- destruct (env_success data); cbn; [setup_leaf|].
       destruct (Py.truthy (Py.or_empty (detect_result E _))); setup_leaf.
    -- destruct (Py.truthy (Py.or_empty (detect_result E _))); setup_leaf.
  * destruct (Py.truthy (Py.or_empty (detect_result E _))); setup_leaf.
+ destruct (Py.truthy (Py.or_empty (detect_result E _))); setup_leaf.
+ destruct (Py.truthy (Py.or_empty (detect_result E _))); setup_leaf.
- cbn. destruct (Py.truthy (Py.or_empty (detect_result E _))); setup_leaf.
Qed.

(** One mapping pass: the run of [gh]; unless it could not be started,
the fetch of the tasks and then only creations. *)
Lemma sync_project_run (vibe_url : string) (limit : Z) (p : project) (w : world) :
exists r evs,
sync_project E vibe_url limit p w
= (r, grow E (gh_event (github_repo p) limit :: evs) w)
/\ Forall (fun ev => is_quiet ev = true) evs
/\ (tool E (length (history w))
      (gh_issue_list (github_repo p) (pretty limit)) <> LaunchFails ->
    r = Ok tt
    /\ exists posts,
         evs = get_tasks_event vibe_url (vibe_project_id p) :: posts
         /\ Forall (fun ev => is_post ev = true) posts).
Proof.
unfold sync_project, mbind, M_bind, bind.
rewrite fetch_github_issues_run.
destruct (issues_of E (Some 60) _) as [gh_issues|e] eqn:Hgh.
- rewrite fetch_vibe_tasks_run.
destruct (issue_loop_run E vibe_url (vibe_project_id p) gh_issues
            (build_lookup (tasks_of (http_get E
               (length (history (advance E (gh_event (github_repo p) limit) w)))
               (vibe_url +:+ "/api/tasks")
               [("project_id", vibe_project_id p)])))
            (advance E (get_tasks_event vibe_url (vibe_project_id p))
               (advance E (gh_event (github_repo p) limit) w)))
  as (sets' & posts & -> & Hposts & _ & _).
exists (Ok tt), (get_tasks_event vibe_url (vibe_project_id p) :: posts).
split_and!.
+ by rewrite !grow_cons.
+ constructor; [done|]. by apply is_post_quiet.
+ intros _. split; [done|]. by exists posts.
- exists (Raise e), []. split_and!; [by rewrite grow_one|done|].
intros Hstarts. unfold issues_of in Hgh.
destruct (tool E _ _) as [rc out err elapsed|]; [|done].
by repeat case_match.
Qed.

Lemma sync_project_consistent (vibe_url : string) (limit : Z) (p : project)
(w : world) :
last (history w) = Some (EvReadFlag false) ->
consistent E w ->
consistent E (sync_project E vibe_url limit p w).2.
Proof.
intros Hlast Hw.
destruct (sync_project_run vibe_url limit p w) as (r & evs & -> & Hevs & _).
cbn [snd]. rewrite grow_cons. apply consistent_grow_quiet; [done|].
by apply consistent_start.
Qed.

Lemma project_loop_consistent (vibe_url : string) (limit : Z)
(ps : list project) (w : world) :
consistent E w -> consistent E (project_loop E vibe_url limit ps w).2.
Proof.
revert w. induction ps as [|p rest IH]; intros w Hw; [done|].
cbn [project_loop]. unfold mbind, M_bind, bind. rewrite read_flag_run.
pose proof (consistent_read w Hw) as Hread.
destruct (shutdown_requested w || signal_at E (length (history w))); [done|].
pose proof (sync_project_consistent vibe_url limit p _
            (last_advance (EvReadFlag false) w) Hread) as Hsync.
destruct (sync_project E vibe_url limit p _) as [[[]|e] w']; [|done].
by apply IH.
Qed.

Lemma sleep_run (secs : Z) (w : world) :
sleep E secs w = (Ok tt, advance E (EvSleep secs) w).
Proof. done. Qed.

Lemma sleep_loop_consistent (n : nat) (w : world) :
consistent E w -> consistent E (sleep_loop E n w).2.
Proof.
revert w. induction n as [|n IH]; intros w Hw; [done|].
cbn [sleep_loop]. unfold mbind, M_bind, bind. rewrite read_flag_run.
pose proof (consistent_read w Hw) as Hread.
destruct (shutdown_requested w || signal_at E (length (history w))); [done|].
rewrite sleep_run. apply IH, consistent_start; [done| |apply last_advance|done].
by intros secs [= <-].
Qed.



(** *** The loop when no signal is delivered *)

Lemma grow_calm (evs : list event) (w : world) :
no_shutdown E -> shutdown_requested (grow E evs w) = shutdown_requested w.
Proof.
intros Hcalm. unfold grow. cbn [shutdown_requested].
replace (existsb _ _) with false; [apply orb_false_r|].
symmetry. apply not_true_is_false. by intros (t & _ & Ht)%existsb_exists; rewrite Hcalm in Ht.
Qed.

Lemma read_flag_calm (w : world) :
no_shutdown E -> shutdown_requested w = false ->
read_flag E w = (Ok false, grow E [EvReadFlag false] w).
Proof. intros Hcalm Hw. by rewrite read_flag_run, grow_one, Hw, Hcalm. Qed.

Lemma project_loop_calm (vibe_url : string) (limit : Z) (ps : list project)
(w : world) :
no_shutdown E -> tool_starts E -> shutdown_requested w = false ->
exists passes,
project_loop E vibe_url limit ps w = (Ok tt, grow E (concat passes) w)
/\ Forall2 (pass_of vibe_url limit) ps passes.
Proof.
intros Hcalm Hstarts. revert w. induction ps as [|p rest IH]; intros w Hw.
- exists []. by rewrite grow_nil.
- cbn [project_loop]. unfold mbind, M_bind, bind.
rewrite read_flag_calm by done.
destruct (sync_project_run vibe_url limit p (grow E [EvReadFlag false] w))
  as (r & evs & -> & _ & Hok).
destruct (Hok (Hstarts _ _)) as (-> & posts & -> & Hposts).
destruct (IH (grow E (gh_event (github_repo p) limit
                      :: get_tasks_event vibe_url (vibe_project_id p) :: posts)
                (grow E [EvReadFlag false] w)))
  as (passes & -> & Hpasses); [by rewrite !grow_calm|].
exists ((EvReadFlag false :: gh_event (github_repo p) limit
         :: get_tasks_event vibe_url (vibe_project_id p) :: posts) :: passes).
split.
+ cbn [concat]. by rewrite <- !grow_app.
+ constructor; [|done]. by exists posts.
Qed.

Lemma sleep_loop_calm (n : nat) (w : world) :
no_shutdown E -> shutdown_requested w = false ->
sleep_loop E n w
= (Ok tt, grow E (concat (replicate n [EvReadFlag false; EvSleep 1])) w).
Proof.
intros Hcalm. revert w. induction n as [|n IH]; intros w Hw.
- by rewrite grow_nil.
- cbn [sleep_loop]. unfold mbind, M_bind, bind.
rewrite read_flag_calm, sleep_run by done.
rewrite IH by (by rewrite <- grow_one, !grow_calm).
cbn [replicate concat app]. by rewrite !grow_cons, grow_nil.
Qed.

(** *** The loop when the flag is already set *)






End Loop.

End LoopFacts.

(** * Main results *)

(** ** Duplicate detection *)

Lemma dry_run_scan_task_eq (sets : lookup) (t : task) :
  dry_run_scan_task sets t = scan_task sets t.
Proof.
  unfold dry_run_scan_task, scan_task, marker_url.
  destruct (Py.contains MARKER _); [|done]. cbv zeta.
  by destruct (Py.truthy (Py.strip _)).
Qed.

Lemma dry_run_lookup_eq (tasks : list task) (sets : lookup) :
  foldl dry_run_scan_task sets tasks = foldl scan_task sets tasks.
Proof.
  revert sets. induction tasks as [|t tasks IH]; intros sets; [done|].
  cbn [foldl]. by rewrite dry_run_scan_task_eq, IH.
Qed.

Lemma dry_run_new_issues_eq (tasks : list task) (gh_issues : list issue) :
  dry_run_new_issues tasks gh_issues
  = filter (fun i => is_duplicate (build_lookup tasks) i = false) gh_issues.
Proof.
  unfold dry_run_new_issues. rewrite dry_run_lookup_eq. fold (build_lookup tasks).
  apply list_filter_iff. intros i. fold (is_duplicate (build_lookup tasks) i).
  by destruct (is_duplicate (build_lookup tasks) i).
Qed.

(** C1: an issue is classified as a duplicate exactly when its URL is in
    the URL set or its stripped title is in the title set; the sets built
    from the tasks hold what the tasks contribute (marker and regex URLs,
    stripped non-empty titles); and for a duplicate no task is created:
    the iteration of [run_sync] returns with the sets and the process
    state untouched, and [dry_run] does not list the issue. *)
Theorem duplicate_iff_in_sets (tasks : list task) (i : issue) :
  let sets := build_lookup tasks in
  (is_duplicate sets i = true
   <-> (issue_url i ∈ existing_urls sets)
       \/ (Py.strip (issue_title i) ∈ existing_titles sets))
  /\ (forall x, x ∈ existing_urls sets <-> exists t, t ∈ tasks /\ url_of_task t x)
  /\ (forall x, x ∈ existing_titles sets <-> exists t, t ∈ tasks /\ title_of_task t x)
  /\ (forall sets', is_duplicate sets' i = true
        <-> (issue_url i ∈ existing_urls sets')
            \/ (Py.strip (issue_title i) ∈ existing_titles sets'))
  /\ (forall E vibe_url vibe_proj_id sets' w,
        is_duplicate sets' i = true ->
        sync_issue E vibe_url vibe_proj_id sets' i w = (Ok sets', w))
  /\ (forall gh_issues,
        is_duplicate sets i = true -> i ∉ dry_run_new_issues tasks gh_issues).
Proof.
  cbv zeta. split_and!.
  - apply IssueFacts.is_duplicate_spec.
  - apply Detector.build_lookup_urls.
  - apply Detector.build_lookup_titles.
  - intros sets'. apply IssueFacts.is_duplicate_spec.
  - intros E vibe_url vibe_proj_id sets' w Hdup.
    by rewrite IssueFacts.sync_issue_run, Hdup.
  - intros gh_issues Hdup. rewrite dry_run_new_issues_eq.
    intros [Hnew _]%list_elem_of_filter. congruence.
Qed.

(** The scenario of the specification: the task made from issue 5 makes
    issue 5 a duplicate, and nothing is posted. *)
Example fix_bug_is_duplicate :
  is_duplicate (build_lookup [Demo.fix_bug_task]) Demo.fix_bug_issue = true
  /\ history (sync_issue Demo.idle Demo.api "p1" (build_lookup [Demo.fix_bug_task])
                Demo.fix_bug_issue initial_world).2 = [].
Proof. split; by vm_compute. Qed.



(** C10: [dry_run] builds the same two sets as [run_sync] and keeps the
    issues that [run_sync] classifies as new against them; when no
    creation takes effect, [run_sync] posts exactly those issues, in
    order. *)
Theorem dry_run_same_classification (tasks : list task) (gh_issues : list issue) :
  foldl dry_run_scan_task empty_lookup tasks = build_lookup tasks
  /\ dry_run_new_issues tasks gh_issues
     = filter (fun i => is_duplicate (build_lookup tasks) i = false) gh_issues
  /\ (forall E vibe_url vibe_proj_id w,
        (forall t url body, post_ok (http_post E t url body) = false) ->
        issue_loop E vibe_url vibe_proj_id gh_issues (build_lookup tasks) w
        = (Ok (build_lookup tasks),
           grow E (map (post_event vibe_url vibe_proj_id)
                     (dry_run_new_issues tasks gh_issues)) w)).
Proof.
  split_and!.
  - apply dry_run_lookup_eq.
  - apply dry_run_new_issues_eq.
  - intros E vibe_url vibe_proj_id w Hfail. rewrite dry_run_new_issues_eq.
    generalize (build_lookup tasks). intros sets. revert w.
    induction gh_issues as [|i rest IH]; intros w.
    + cbn. by rewrite WorldFacts.grow_nil.
    + rewrite IssueFacts.issue_loop_cons, filter_cons.
      destruct (is_duplicate sets i) eqn:Hdup.
      * rewrite decide_False by done. apply IH.
      * rewrite decide_True by done. unfold created. rewrite Hfail.
        cbn [map]. by rewrite WorldFacts.grow_cons, IH.
Qed.

(** ** The clients *)



(** What is outside C4: when the executable cannot be started, the
    [OSError] is not caught. *)
Lemma fetch_github_issues_launch_fails (E : environment) (repo : string)
    (limit : Z) (w : world) :
  tool E (length (history w)) (gh_issue_list repo (pretty limit)) = LaunchFails ->
  (fetch_github_issues E repo limit w).1 = Raise OSError.
Proof. intros Htool. by rewrite ClientFacts.fetch_github_issues_run, Htool. Qed.

(** C6: [create_vibe_task] always returns a boolean; it is [True] exactly
    when the board answered with status 200 or 201, and [False] when the
    request timed out or the connection failed.  The first script behaves
    the same. *)
Theorem create_vibe_task_status (E : environment)
    (api_url project_id title content : string) (w : world) :
  let b := http_post E (length (history w)) (api_url +:+ "/api/tasks")
             (Payload title project_id content) in
  (exists ok, (create_vibe_task E api_url project_id title content w).1 = Ok ok)
  /\ ((create_vibe_task E api_url project_id title content w).1 = Ok true
      <-> exists r, b = Responds r /\ (status_code r = 200 \/ status_code r = 201))
  /\ (network_error b ->
      (create_vibe_task E api_url project_id title content w).1 = Ok false)
  /\ (Main.create_vibe_task E api_url project_id title content w).1
     = (create_vibe_task E api_url project_id title content w).1.
Proof.
  cbv zeta.
  rewrite ClientFacts.create_vibe_task_run, ClientFacts.main_create_vibe_task_run.
  cbn [fst]. split_and!.
  - eauto.
  - destruct (http_post E _ _ _) as [r| |]; cbn [post_ok].
    + split.
      * intros [= Hok]. apply bool_decide_eq_true in Hok. exists r. split; [done|].
        apply elem_of_cons in Hok as [->|Hok]; [by left|].
        apply list_elem_of_singleton in Hok as ->. by right.
      * intros (r' & [= <-] & Hstatus). f_equal. apply bool_decide_eq_true.
        destruct Hstatus as [-> | ->]; set_solver.
    + split; [done|]. by intros (r & ? & _).
    + split; [done|]. by intros (r & ? & _).
  - by intros [-> | ->].
  - done.
Qed.

(** ** The board fetch *)


(** ** Creations within one pass *)






(** ** A failing board fetch *)




(** ** Run-once mode and shutdown *)





(** The scenario of the specification: two mappings without open issues;
    the run makes two passes and returns, without a sleep. *)
Example run_once_two_mappings :
  run_sync Demo.idle Demo.two_projects true 1 initial_world
  = (Ok Returned,
     World [EvGet (Demo.api +:+ "/api/projects") [] (Some 2);
            EvReadFlag false;
            EvReadFlag false; gh_event "o/r" 100; get_tasks_event Demo.api "p1";
            EvReadFlag false; gh_event "o/s" 100; get_tasks_event Demo.api "p2"]
           false).
Proof. vm_compute. reflexivity. Qed.


(** A signal delivered during the first second of sleep: the second ends,
    the next check finds the flag set, and the loop returns. *)
Example interrupted_sleep :
  run_sync (Demo.interrupted 7) Demo.every_three_seconds false 5 initial_world
  = (Ok Returned,
     World [EvGet (Demo.api +:+ "/api/projects") [] (Some 2);
            EvReadFlag false;
            EvReadFlag false; gh_event "o/r" 100; get_tasks_event Demo.api "p1";
            EvReadFlag false;
            EvReadFlag false; EvSleep 1;
            EvReadFlag true;
            EvReadFlag true]
           true).
Proof. vm_compute. reflexivity. Qed.

(** * Further properties *)

(** ** Tasks created by the sync are recognised later *)

Module ScanFacts.
Import PyFacts.

Lemma prefix_split (p s : string) :
String.prefix p s = true -> s = p +:+ Py.drop (String.length p) s.
Proof.
revert s. induction p as [|c p IH]; intros s.
- intros _. unfold Py.drop. rewrite app_empty, Nat.sub_0_r.
  by rewrite substring_all.
- destruct s as [|d s]; [done|]. cbn [String.prefix].
  destruct (ascii_dec c d) as [<-|]; [|done].
  intros Hp. rewrite app_cons. f_equal. by apply IH.
Qed.

Lemma prefix_app (p s : string) : String.prefix p (p +:+ s) = true.
Proof.
induction p as [|c p IH]; [by destruct s|].
rewrite app_cons. cbn [String.prefix]. by destruct (ascii_dec c c).
Qed.

Lemma drop_app (p s : string) : Py.drop (String.length p) (p +:+ s) = s.
Proof.
unfold Py.drop. rewrite length_app.
replace (String.length p + String.length s - String.length p)%nat
  with (String.length s) by lia.
rewrite <- (Nat.add_0_r (String.length p)) at 1.
rewrite substring_skip. apply substring_all.
Qed.

Lemma take_while_split (p : ascii -> bool) (s : string) :
exists rest, s = Py.take_while p s +:+ rest.
Proof.
induction s as [|c s [rest IH]]; [by exists ""|].
cbn [Py.take_while]. destruct (p c).
- exists rest. rewrite app_cons. by f_equal.
- by exists (String c s).
Qed.

Lemma take_while_all (p : ascii -> bool) (s : string) :
all_chars p s = true -> Py.take_while p s = s.
Proof.
induction s as [|c s IH]; [done|].
cbn [all_chars Py.take_while]. intros [-> Hs]%andb_prop. by rewrite IH.
Qed.

(** A match is a prefix of the text it was found in. *)
Lemma match_here_prefix (s m : string) :
Re.match_here s = Some m -> exists rest, s = m +:+ rest.
Proof.
unfold Re.match_here. destruct (String.prefix _ s) eqn:Hp; [|done].
destruct (Py.take_while _ _) as [|c run] eqn:Hrun; [done|].
intros [= <-]. apply prefix_split in Hp.
destruct (take_while_split Re.url_char
            (Py.drop (String.length Re.GITHUB_PREFIX) s)) as [rest Hrest].
rewrite Hrun in Hrest. exists rest.
rewrite Detector.app_assoc, <- Hrest. done.
Qed.

(** A run without white space ends before the next white space. *)
Lemma no_space_bound (m rest a b : string) (sp : ascii) :
all_chars (fun c => negb (Py.isspace c)) m = true ->
Py.isspace sp = true ->
m +:+ rest = a +:+ String sp b ->
(String.length m <= String.length a)%nat.
Proof.
intros Hm Hsp. revert a. induction m as [|c m IH]; intros a; [cbn; lia|].
cbn [all_chars] in Hm. apply andb_prop in Hm as [Hc Hm].
destruct a as [|c' a].
- rewrite app_cons, app_empty. intros [= -> _].
  by rewrite Hsp in Hc.
- rewrite !app_cons. intros [= _ Heq]. cbn [String.length].
  apply le_n_S. by apply IH.
Qed.

Lemma findall_from_skipped (s : string) (k : nat) :
(String.length s <= k)%nat -> Re.findall_from k s = [].
Proof.
revert k. induction s as [|c s IH]; intros k; [done|].
cbn [String.length Re.findall_from]. destruct k as [|k]; [lia|].
intros Hk. apply IH. lia.
Qed.

(** The scan starts afresh after a white space, whatever came before. *)
Lemma findall_from_through (a b : string) (sp : ascii) (skip : nat) :
Py.isspace sp = true ->
(skip <= String.length a)%nat ->
exists l, Re.findall_from skip (a +:+ String sp b) = l ++ Re.findall_from 0 b.
Proof.
intros Hsp. revert skip. induction a as [|c a IH]; intros skip Hskip.
- rewrite app_empty. cbn [String.length] in Hskip.
  replace skip with 0%nat by lia. exists []. cbn [Re.findall_from app].
  assert (Re.match_here (String sp b) = None) as ->; [|done].
  unfold Re.match_here, Re.GITHUB_PREFIX. cbn [String.prefix].
  destruct (ascii_dec "h" sp) as [<-|]; [by vm_compute in Hsp|done].
- rewrite app_cons. cbn [Re.findall_from]. destruct skip as [|k].
  + destruct (Re.match_here (String c (a +:+ String sp b))) as [m|] eqn:Hm.
    * destruct (match_here_prefix _ _ Hm) as [rest Hrest].
      pose proof (Detector.well_formed_no_space m
                    (Detector.match_here_well_formed _ _ Hm)) as Hns.
      rewrite <- app_cons in Hrest. symmetry in Hrest.
      pose proof (no_space_bound m rest (String c a) b sp Hns Hsp Hrest) as Hlen.
      cbn [String.length] in Hlen.
      destruct (IH (String.length m - 1)%nat) as [l Hl]; [lia|].
      exists (m :: l). by rewrite Hl.
    * apply IH. lia.
  + apply IH. cbn [String.length] in Hskip. lia.
Qed.

Lemma match_here_whole (u : string) :
well_formed u -> Re.match_here u = Some u.
Proof.
intros (run & -> & Hne & Hrun). unfold Re.match_here.
rewrite prefix_app, drop_app, take_while_all by done.
by destruct run.
Qed.

Lemma findall_whole (u : string) :
well_formed u -> Re.findall_from 0 u = [u].
Proof.
intros Hu. pose proof (match_here_whole u Hu) as Hm.
destruct u as [|c u]; [done|].
cbn [Re.findall_from]. rewrite Hm. f_equal.
apply findall_from_skipped. cbn [String.length]. lia.
Qed.

(** The URL appended after the marker is found by the scan, whatever the
  body is. *)
Lemma findall_new_task_content (i : issue) :
well_formed (issue_url i) ->
issue_url i ∈ Re.findall_github (new_task_content i).
Proof.
intros Hu. unfold Re.findall_github, new_task_content.
assert (Py.or_empty (issue_body i) +:+ Py.LF +:+ Py.LF +:+ MARKER +:+ issue_url i
        = (Py.or_empty (issue_body i) +:+ Py.LF +:+ Py.LF +:+ "Original Issue:")
          +:+ String " " (issue_url i)) as ->.
{ by rewrite !Detector.app_assoc. }
destruct (findall_from_through
            (Py.or_empty (issue_body i) +:+ Py.LF +:+ Py.LF +:+ "Original Issue:")
            (issue_url i) " " 0) as [l ->]; [done|lia|].
rewrite findall_whole by done. set_solver.
Qed.

End ScanFacts.

(** The URL written after the marker reaches the URL set. *)
Lemma new_task_content_url_in_set (tasks : list task) (t : task) (i : issue) :
  t ∈ tasks ->
  task_content t = Some (new_task_content i) ->
  well_formed (issue_url i) ->
  issue_url i ∈ existing_urls (build_lookup tasks).
Proof.
  intros Ht Hcontent Hu.
  apply Detector.build_lookup_urls. exists t. split; [done|]. right.
  exists (issue_url i). rewrite Hcontent.
  assert (Py.or_empty (Some (new_task_content i)) = new_task_content i) as ->.
  { unfold Py.or_empty. destruct (new_task_content i) eqn:Hc; [|done].
    pose proof (f_equal String.length Hc) as Hlen.
    unfold new_task_content in Hlen. rewrite !PyFacts.length_app in Hlen.
    cbn in Hlen. lia. }
  split; [by apply ScanFacts.findall_new_task_content|].
  symmetry. by apply PyFacts.strip_id, Detector.well_formed_no_space.
Qed.

(** X1: a task whose content is the one [run_sync] writes for an issue
    makes that issue a duplicate in every later pass, whatever the body of
    the issue holds and whatever the title of the task has become, as long
    as the URL of the issue matches the pattern of the scan. *)
Theorem created_task_recognised_by_url (tasks : list task) (t : task) (i : issue) :
  t ∈ tasks ->
  task_content t = Some (new_task_content i) ->
  well_formed (issue_url i) ->
  (issue_url i ∈ existing_urls (build_lookup tasks))
  /\ is_duplicate (build_lookup tasks) i = true.
Proof.
  intros Ht Hcontent Hu.
  pose proof (new_task_content_url_in_set tasks t i Ht Hcontent Hu) as Hin.
  split; [done|]. apply IssueFacts.is_duplicate_spec. by left.
Qed.

Lemma created_task_recognised_by_url_witness :
  (issue_url Demo.bug1 ∈ existing_urls (build_lookup [Sample.made_from Demo.bug1]))
  /\ is_duplicate (build_lookup [Sample.made_from Demo.bug1]) Demo.bug1 = true.
Proof.
  apply (created_task_recognised_by_url [Sample.made_from Demo.bug1]
           (Sample.made_from Demo.bug1) Demo.bug1).
  - apply list_elem_of_singleton. reflexivity.
  - reflexivity.
  - exists "o/r/issues/1". split_and!; [reflexivity|discriminate|vm_compute; reflexivity].
Defined.

(** X2: the title is a fallback that ignores surrounding white space: a
    task with a non-empty title that strips to the stripped title of the
    issue makes the issue a duplicate, whatever the content of the task. *)
Theorem task_title_recognised (tasks : list task) (t : task) (i : issue)
    (title : string) :
  t ∈ tasks ->
  task_title t = Some title ->
  title <> "" ->
  Py.strip title = Py.strip (issue_title i) ->
  is_duplicate (build_lookup tasks) i = true.
Proof.
  intros Ht Htitle Hne Hstrip. apply IssueFacts.is_duplicate_spec. right.
  apply Detector.build_lookup_titles. exists t. split; [done|].
  unfold title_of_task. rewrite Htitle. cbn [default]. split; [|done].
  by destruct title.
Qed.

Lemma task_title_recognised_witness :
  is_duplicate (build_lookup [Sample.retitled Demo.bug1]) Demo.bug1 = true.
Proof.
  apply (task_title_recognised [Sample.retitled Demo.bug1]
           (Sample.retitled Demo.bug1) Demo.bug1 "  Bug ").
  - apply list_elem_of_singleton. reflexivity.
  - reflexivity.
  - discriminate.
  - vm_compute. reflexivity.
Defined.

Module StripFacts.

Lemma rstrip_idem (s : string) : Py.rstrip (Py.rstrip s) = Py.rstrip s.
Proof.
induction s as [|c s IH]; [done|].
cbn [Py.rstrip]. destruct (Py.rstrip s) as [|d r] eqn:Hr.
- destruct (Py.isspace c) eqn:Hc; [done|]. cbn [Py.rstrip]. by rewrite Hc.
- cbn [Py.rstrip]. cbn [Py.rstrip] in IH. by rewrite IH.
Qed.

Lemma lstrip_head (s : string) :
match Py.lstrip s with
| EmptyString => True
| String c _ => Py.isspace c = false
end.
Proof.
induction s as [|c s IH]; [done|].
cbn [Py.lstrip]. by destruct (Py.isspace c) eqn:Hc.
Qed.

Lemma lstrip_rstrip (x : string) :
match x with
| EmptyString => True
| String c _ => Py.isspace c = false
end ->
Py.lstrip (Py.rstrip x) = Py.rstrip x.
Proof.
destruct x as [|c x]; [done|]. intros Hc.
cbn [Py.rstrip]. destruct (Py.rstrip x); rewrite ?Hc; cbn [Py.lstrip]; by rewrite Hc.
Qed.

(** Stripping twice is stripping once. *)
Lemma strip_idem (s : string) : Py.strip (Py.strip s) = Py.strip s.
Proof.
unfold Py.strip. rewrite lstrip_rstrip by apply lstrip_head.
apply rstrip_idem.
Qed.

Lemma marker_url_stripped (content u : string) :
marker_url content = Some u -> u <> "" /\ Py.strip u = u.
Proof.
unfold marker_url. destruct (Py.contains MARKER content); [|done]. cbv zeta.
destruct (Py.truthy (Py.strip _)) eqn:Htruthy; [|done].
intros [= <-]. split; [|apply strip_idem].
intros Hempty. by rewrite Hempty in Htruthy.
Qed.

End StripFacts.

(** X3: the sets built from the board hold only clean keys: a URL in the
    URL set is never empty and has no white space at either end, and a
    title in the title set has no white space at either end. *)
Theorem lookup_keys_are_stripped (tasks : list task) (x : string) :
  (x ∈ existing_urls (build_lookup tasks) -> x <> "" /\ Py.strip x = x)
  /\ (x ∈ existing_titles (build_lookup tasks) -> Py.strip x = x).
Proof.
  split.
  - intros (t & _ & [Hmarker|(u & Hu & ->)])%Detector.build_lookup_urls.
    + by eapply StripFacts.marker_url_stripped.
    + rewrite (Detector.findall_strip _ _ Hu). split.
      * destruct (Detector.findall_from_well_formed _ _ _ Hu) as (run & -> & _ & _).
        done.
      * by eapply Detector.findall_strip.
  - intros (t & _ & _ & ->)%Detector.build_lookup_titles.
    apply StripFacts.strip_idem.
Qed.

(** ** One pass creates each issue once *)

Lemma is_duplicate_track_false (sets : lookup) (i j : issue) :
  is_duplicate (track sets i) j = false ->
  is_duplicate sets j = false
  /\ issue_url j <> issue_url i
  /\ Py.strip (issue_title j) <> Py.strip (issue_title i).
Proof.
  intros [Hurl Htitle]%IssueFacts.is_duplicate_false.
  unfold track in Hurl, Htitle. cbn in Hurl, Htitle. split_and!.
  - apply IssueFacts.is_duplicate_false. set_solver.
  - set_solver.
  - set_solver.
Qed.

(** X4: when every creation succeeds, one pass over the issues posts a
    sub-list of them in which no two issues share a URL or a stripped
    title and none was a duplicate of the board; the sets handed on are
    the initial ones with exactly those issues tracked. *)
Theorem pass_creates_each_issue_once (E : environment)
    (vibe_url vibe_proj_id : string) (gh_issues : list issue) (sets : lookup)
    (w : world) :
  (forall t url body, post_ok (http_post E t url body) = true) ->
  exists made,
    issue_loop E vibe_url vibe_proj_id gh_issues sets w
    = (Ok (foldl track sets made),
       grow E (map (post_event vibe_url vibe_proj_id) made) w)
    /\ sublist made gh_issues
    /\ NoDup (issue_url <$> made)
    /\ NoDup ((fun i => Py.strip (issue_title i)) <$> made)
    /\ (forall i, i ∈ made -> is_duplicate sets i = false).
Proof.
  intros Hok. revert sets w. induction gh_issues as [|i rest IH]; intros sets w.
  - exists []. cbn. rewrite WorldFacts.grow_nil. split_and!; try done.
    + apply NoDup_nil_2.
    + apply NoDup_nil_2.
    + by intros i ?%elem_of_nil.
  - rewrite IssueFacts.issue_loop_cons.
    destruct (is_duplicate sets i) eqn:Hdup.
    + destruct (IH sets w) as (made & -> & Hsub & Hurls & Htitles & Hnew).
      exists made. split_and!; try done. by apply sublist_cons.
    + unfold created. rewrite Hok.
      destruct (IH (track sets i) (advance E (post_event vibe_url vibe_proj_id i) w))
        as (made & -> & Hsub & Hurls & Htitles & Hnew).
      exists (i :: made). split_and!.
      * cbn [foldl map]. by rewrite WorldFacts.grow_cons.
      * by apply sublist_skip.
      * cbn [fmap list_fmap]. apply NoDup_cons. split; [|done].
        intros (j & Heq & Hj)%list_elem_of_fmap.
        destruct (is_duplicate_track_false sets i j (Hnew j Hj)) as (_ & Hne & _).
        by rewrite Heq in Hne.
      * cbn [fmap list_fmap]. apply NoDup_cons. split; [|done].
        intros (j & Heq & Hj)%list_elem_of_fmap.
        destruct (is_duplicate_track_false sets i j (Hnew j Hj)) as (_ & _ & Hne).
        by rewrite Heq in Hne.
      * intros j [->|Hj]%elem_of_cons; [done|].
        by destruct (is_duplicate_track_false sets i j (Hnew j Hj)) as (? & _).
Qed.

Lemma pass_creates_each_issue_once_witness :
  exists made,
    issue_loop Demo.idle Demo.api "p1"
      [Demo.bug1; Demo.bug2; Sample.bug1_again] empty_lookup initial_world
    = (Ok (foldl track empty_lookup made),
       grow Demo.idle (map (post_event Demo.api "p1") made) initial_world)
    /\ sublist made [Demo.bug1; Demo.bug2; Sample.bug1_again]
    /\ NoDup (issue_url <$> made)
    /\ NoDup ((fun i => Py.strip (issue_title i)) <$> made)
    /\ (forall i, i ∈ made -> is_duplicate empty_lookup i = false).
Proof.
  apply (pass_creates_each_issue_once Demo.idle Demo.api "p1"
           [Demo.bug1; Demo.bug2; Sample.bug1_again] empty_lookup initial_world).
  intros t url body. reflexivity.
Defined.

(** ** What [dry_run] and [get_vibe_api_url] do to the board *)

Module DryRunFacts.
Import ClientFacts WorldFacts.

Lemma dry_run_projects_run (E : environment) (vibe_url : string) (limit : Z)
  (ps : list project) (w : world) :
exists r evs,
  dry_run_projects E vibe_url limit ps w = (r, grow E evs w)
  /\ Forall (fun ev => is_read_only ev = true) evs
  /\ (tool_starts E -> exists lists, r = Ok lists /\ length lists = length ps).
Proof.
revert w. induction ps as [|p rest IH]; intros w.
- exists (Ok []), []. rewrite grow_nil. split_and!; [done..|].
  intros _. by exists [].
- cbn [dry_run_projects]. unfold mbind, M_bind, bind.
  rewrite fetch_github_issues_run.
  destruct (issues_of E (Some 60) _) as [gh_issues|e] eqn:Hgh.
  + rewrite fetch_vibe_tasks_run.
    destruct (IH (advance E (get_tasks_event vibe_url (vibe_project_id p))
                    (advance E (gh_event (github_repo p) limit) w)))
      as (r & evs & -> & Hevs & Hok).
    destruct r as [more|e].
    * eexists (Ok _), (gh_event (github_repo p) limit
                       :: get_tasks_event vibe_url (vibe_project_id p) :: evs).
      split_and!; [by rewrite !grow_cons|by repeat constructor|].
      intros [lists [[= ->] Hlen]]%Hok. eexists. split; [done|].
      cbn [length]. by rewrite Hlen.
    * exists (Raise e), (gh_event (github_repo p) limit
                         :: get_tasks_event vibe_url (vibe_project_id p) :: evs).
      split_and!; [by rewrite !grow_cons|by repeat constructor|].
      by intros [lists [? _]]%Hok.
  + exists (Raise e), [gh_event (github_repo p) limit].
    split_and!; [by rewrite grow_one|by repeat constructor|].
    intros Hstarts. unfold issues_of in Hgh.
    destruct (tool E _ _) as [rc out err elapsed|] eqn:Htool;
      [by repeat case_match|by destruct (Hstarts _ _ Htool)].
Qed.

End DryRunFacts.

(** X5: [dry_run] only reads: every call it makes is a run of [gh], a GET
    or the detection of the port, so it posts nothing, sleeps never and
    does not look at the shutdown flag; when [gh] can be started it
    returns one list of issues per configured mapping. *)
Theorem dry_run_only_reads (E : environment) (cfg : config) (w : world) :
  exists r evs,
    dry_run E cfg w = (r, grow E evs w)
    /\ Forall (fun ev => is_read_only ev = true) evs
    /\ (tool_starts E ->
        exists lists, r = Ok lists
                      /\ length lists = length (default [] (projects cfg))).
Proof.
  unfold dry_run, mbind, M_bind, bind.
  destruct (LoopFacts.get_vibe_api_url_run E cfg w) as (vibe_url & setup & -> & Hsetup).
  destruct (DryRunFacts.dry_run_projects_run E vibe_url (default 100 (issue_limit cfg))
              (default [] (projects cfg)) (grow E setup w))
    as (r & evs & -> & Hevs & Hok).
  exists r, (setup ++ evs). split_and!; [by rewrite WorldFacts.grow_app| |done].
  apply Forall_app. split; [|done].
  eapply Forall_impl; [done|]. by intros [].
Qed.


(** ** A delivered signal ends the loop *)

Module StopFacts.
Import ClientFacts WorldFacts LoopFacts.

Section Stop.

Variable E : environment.

Lemma length_grow (evs : list event) (w : world) :
length (history (grow E evs w)) = (length (history w) + length evs)%nat.
Proof. unfold grow. cbn. apply length_app. Qed.

Lemma length_advance (ev : event) (w : world) :
length (history (advance E ev w)) = S (length (history w)).
Proof. unfold advance. cbn. rewrite length_app. cbn. lia. Qed.

(** When [gh] can be started the loop over the mappings ends normally. *)
Lemma project_loop_ok (vibe_url : string) (limit : Z) (ps : list project)
(w : world) :
tool_starts E ->
exists evs, project_loop E vibe_url limit ps w = (Ok tt, grow E evs w).
Proof.
intros Hstarts. revert w. induction ps as [|p rest IH]; intros w.
- exists []. by rewrite grow_nil.
- cbn [project_loop]. unfold mbind, M_bind, bind. rewrite read_flag_run.
destruct (shutdown_requested w || signal_at E (length (history w))).
+ exists [EvReadFlag true]. by rewrite grow_one.
+ destruct (sync_project_run E vibe_url limit p (advance E (EvReadFlag false) w))
    as (r & evs & -> & _ & Hok).
  destruct (Hok (Hstarts _ _)) as [-> _].
  destruct (IH (grow E (gh_event (github_repo p) limit :: evs)
                  (advance E (EvReadFlag false) w))) as [evs' ->].
  exists (EvReadFlag false :: (gh_event (github_repo p) limit :: evs) ++ evs').
  by rewrite (grow_cons E (EvReadFlag false) _ w), grow_app.
Qed.

Lemma sleep_loop_ok (n : nat) (w : world) :
exists evs, sleep_loop E n w = (Ok tt, grow E evs w).
Proof.
revert w. induction n as [|n IH]; intros w.
- exists []. by rewrite grow_nil.
- cbn [sleep_loop]. unfold mbind, M_bind, bind. rewrite read_flag_run.
destruct (shutdown_requested w || signal_at E (length (history w))).
+ exists [EvReadFlag true]. by rewrite grow_one.
+ rewrite sleep_run.
  destruct (IH (advance E (EvSleep 1) (advance E (EvReadFlag false) w)))
    as [evs ->].
  exists (EvReadFlag false :: EvSleep 1 :: evs). by rewrite !grow_cons.
Qed.

(** A read at or after the moment of a signal finds the flag set. *)
Lemma read_after_signal (t : nat) (w : world) :
consistent E w -> signal_at E t = true -> (t <= length (history w))%nat ->
shutdown_requested w || signal_at E (length (history w)) = true.
Proof.
intros Hw Ht Hle. destruct (decide (t = length (history w))) as [<-|Hne].
- rewrite Ht. apply orb_true_r.
- rewrite (cons_flag E w Hw).
rewrite (signalled_mono E (S t) (length (history w))); [done|lia|].
by apply signalled_at.
Qed.

Lemma while_loop_returns (t fuel : nat) (vibe_url : string)
(limit sync_interval : Z) (ps : list project) (once : bool) (w : world) :
tool_starts E -> signal_at E t = true -> consistent E w ->
(0 < fuel)%nat -> (t < length (history w) + fuel)%nat ->
(while_loop E fuel vibe_url limit sync_interval ps once w).1 = Ok Returned.
Proof.
intros Hstarts Ht. revert w.
induction fuel as [|fuel IH]; intros w Hw Hpos Hfuel; [lia|].
cbn [while_loop]. unfold mbind, M_bind, bind. rewrite read_flag_run.
pose proof (consistent_read E w Hw) as Hread.
destruct (shutdown_requested w || signal_at E (length (history w))) eqn:Hflag;
[done|].
assert (length (history w) < t)%nat as Hearly.
{ destruct (decide (length (history w) < t)%nat) as [|Hlate]; [done|].
rewrite (read_after_signal t w) in Hflag; [done..|lia]. }
pose proof (project_loop_consistent E vibe_url limit ps _ Hread) as Hpass.
destruct (project_loop_ok vibe_url limit ps (advance E (EvReadFlag false) w) Hstarts)
as [evs Hloop].
rewrite Hloop in Hpass |- *. cbn [snd] in Hpass. destruct once; [done|].
rewrite read_flag_run.
pose proof (consistent_read E _ Hpass) as Hread1.
set (w1 := grow E evs (advance E (EvReadFlag false) w)) in *.
assert (S (length (history w)) <= length (history w1))%nat as Hlen1.
{ unfold w1. rewrite length_grow, length_advance. lia. }
destruct (shutdown_requested w1 || signal_at E (length (history w1))).
- apply IH; [done|lia|]. rewrite length_advance. lia.
- destruct (sleep_loop_ok (Z.to_nat sync_interval)
            (advance E (EvReadFlag false) w1)) as [evs' Hsleep].
pose proof (sleep_loop_consistent E (Z.to_nat sync_interval) _ Hread1) as Hslept.
rewrite Hsleep in Hslept |- *. cbn [snd] in Hslept.
apply IH; [done|lia|]. rewrite length_grow, length_advance. lia.
Qed.

End Stop.

End StopFacts.

(** X7: a delivered signal ends [run_sync]: when SIGINT or SIGTERM is
    delivered at moment [t] and [gh] can be started, the loop has returned
    by its iteration [t + 1] at the latest, in continuous mode as in
    run-once mode. *)
Theorem signal_ends_run_sync (E : environment) (cfg : config) (once : bool)
    (t fuel : nat) :
  tool_starts E ->
  signal_at E t = true ->
  (t < fuel)%nat ->
  (run_sync E cfg once fuel initial_world).1 = Ok Returned.
Proof.
  intros Hstarts Ht Hfuel. unfold run_sync, mbind, M_bind, bind.
  destruct (LoopFacts.get_vibe_api_url_run E cfg initial_world)
    as (vibe_url & setup & -> & Hsetup).
  apply (StopFacts.while_loop_returns E t); [done|done| |lia|lia].
  apply LoopFacts.consistent_grow_quiet; [|apply LoopFacts.consistent_initial].
  by apply LoopFacts.is_setup_quiet.
Qed.

Lemma signal_ends_run_sync_witness :
  (run_sync (Demo.interrupted 7) Demo.every_three_seconds false 8 initial_world).1
  = Ok Returned.
Proof.
  apply (signal_ends_run_sync (Demo.interrupted 7) Demo.every_three_seconds false 7 8).
  - intros t cmd. discriminate.
  - reflexivity.
  - lia.
Defined.

(** X8: without the [gh] executable [run_sync] does not degrade to an
    empty pass: the [OSError] of the first mapping goes through it, after
    the run was attempted and before the board is asked for its tasks. *)
Theorem run_sync_fails_without_gh (E : environment) (cfg : config) (once : bool)
    (fuel : nat) (p : project) (ps : list project) :
  no_shutdown E ->
  tool_missing E ->
  projects cfg = Some (p :: ps) ->
  exists setup,
    run_sync E cfg once (S fuel) initial_world
    = (Raise OSError,
       World (setup ++ [EvReadFlag false; EvReadFlag false;
                        gh_event (github_repo p) (default 100 (issue_limit cfg))])
             false)
    /\ Forall (fun ev => is_setup ev = true) setup.
Proof.
  intros Hcalm Hmissing Hps. unfold run_sync, mbind, M_bind, bind.
  destruct (LoopFacts.get_vibe_api_url_run E cfg initial_world)
    as (vibe_url & setup & -> & Hsetup).
  exists setup. split; [|done].
  rewrite Hps. change (default [] (Some (p :: ps))) with (p :: ps).
  cbn [while_loop]. unfold mbind, M_bind, bind.
  rewrite LoopFacts.read_flag_calm by (by rewrite ?LoopFacts.grow_calm).
  cbn [project_loop]. unfold mbind, M_bind, bind.
  rewrite LoopFacts.read_flag_calm by (by rewrite ?LoopFacts.grow_calm).
  unfold sync_project, mbind, M_bind, bind.
  rewrite ClientFacts.fetch_github_issues_run, Hmissing. cbn [issues_of].
  f_equal. rewrite <- WorldFacts.grow_one, <- !WorldFacts.grow_app.
  pose proof (LoopFacts.grow_calm E
                (setup ++ [EvReadFlag false] ++ [EvReadFlag false]
                 ++ [gh_event (github_repo p) (default 100 (issue_limit cfg))])
                initial_world Hcalm) as Hflag.
  destruct (grow E _ initial_world) as [h b] eqn:Hgrow.
  cbn in Hflag. subst b. unfold grow in Hgrow. by injection Hgrow as <-.
Qed.

Lemma run_sync_fails_without_gh_witness :
  exists setup,
    run_sync Sample.no_gh Demo.two_projects true 1 initial_world
    = (Raise OSError,
       World (setup ++ [EvReadFlag false; EvReadFlag false;
                        gh_event "o/r" (default 100 (issue_limit Demo.two_projects))])
             false)
    /\ Forall (fun ev => is_setup ev = true) setup.
Proof.
  apply (run_sync_fails_without_gh Sample.no_gh Demo.two_projects true 0
           (Project "o/r" "p1") [Project "o/s" "p2"]).
  - intros t. reflexivity.
  - intros t cmd. reflexivity.
  - reflexivity.
Defined.

(** ** Passes that follow one another *)

(** X20: a second pass creates nothing: when every fetched issue has a URL
    that matches the pattern of the scan and the board lists, for each of
    them, a task with the content [run_sync] wrote, the loop over the
    issues returns without a call and with the sets as built, and
    [dry_run] lists no issue. *)
Theorem second_pass_creates_nothing (E : environment)
    (vibe_url vibe_proj_id : string) (vibe_tasks : list task)
    (gh_issues : list issue) (w : world) :
  (forall i, i ∈ gh_issues ->
     well_formed (issue_url i)
     /\ exists t, t ∈ vibe_tasks /\ task_content t = Some (new_task_content i)) ->
  issue_loop E vibe_url vibe_proj_id gh_issues (build_lookup vibe_tasks) w
  = (Ok (build_lookup vibe_tasks), w)
  /\ dry_run_new_issues vibe_tasks gh_issues = [].
Proof.
  intros Hboard.
  assert (forall i, i ∈ gh_issues -> is_duplicate (build_lookup vibe_tasks) i = true)
    as Hdup.
  { intros i [Hu (t & Ht & Hcontent)]%Hboard.
    apply IssueFacts.is_duplicate_spec. left.
    by eapply new_task_content_url_in_set. }
  clear Hboard. split.
  - induction gh_issues as [|i rest IH]; [done|].
    rewrite IssueFacts.issue_loop_cons, (Hdup i) by (by left).
    apply IH. intros j Hj. apply Hdup. by right.
  - rewrite dry_run_new_issues_eq.
    induction gh_issues as [|i rest IH]; [done|].
    rewrite filter_cons. rewrite decide_False by (rewrite (Hdup i); [done|by left]).
    apply IH. intros j Hj. apply Hdup. by right.
Qed.

Lemma second_pass_creates_nothing_witness :
  issue_loop Demo.idle Demo.api "p1" [Demo.bug1; Demo.bug2]
    (build_lookup [Sample.made_from Demo.bug2; Sample.made_from Demo.bug1])
    initial_world
  = (Ok (build_lookup [Sample.made_from Demo.bug2; Sample.made_from Demo.bug1]),
     initial_world)
  /\ dry_run_new_issues [Sample.made_from Demo.bug2; Sample.made_from Demo.bug1]
       [Demo.bug1; Demo.bug2] = [].
Proof.
  apply (second_pass_creates_nothing Demo.idle Demo.api "p1"
           [Sample.made_from Demo.bug2; Sample.made_from Demo.bug1]
           [Demo.bug1; Demo.bug2] initial_world).
  intros i [->|[->|[]%elem_of_nil]%elem_of_cons]%elem_of_cons.
  - split.
    + exists "o/r/issues/1". split_and!; [reflexivity|discriminate|vm_compute; reflexivity].
    + exists (Sample.made_from Demo.bug1). split; [|reflexivity].
      apply elem_of_cons. right. apply list_elem_of_singleton. reflexivity.
  - split.
    + exists "o/r/issues/2". split_and!; [reflexivity|discriminate|vm_compute; reflexivity].
    + exists (Sample.made_from Demo.bug2). split; [|reflexivity].
      apply elem_of_cons. left. reflexivity.
Defined.

Module CycleFacts.
Import WorldFacts LoopFacts.

Lemma while_loop_cycles (E : environment) (fuel : nat) (vibe_url : string)
  (limit sync_interval : Z) (ps : list project) (w : world) :
no_shutdown E -> tool_starts E -> shutdown_requested w = false ->
exists cycles,
  while_loop E fuel vibe_url limit sync_interval ps false w
  = (Ok Running, grow E (concat cycles) w)
  /\ length cycles = fuel
  /\ Forall (cycle_of vibe_url limit ps (Z.to_nat sync_interval)) cycles.
Proof.
intros Hcalm Hstarts. revert w. induction fuel as [|fuel IH]; intros w Hw.
- exists []. by rewrite grow_nil.
- cbn [while_loop]. unfold mbind, M_bind, bind.
  rewrite read_flag_calm by done.
  destruct (project_loop_calm E vibe_url limit ps (grow E [EvReadFlag false] w)
              Hcalm Hstarts) as (passes & -> & Hpasses); [by rewrite grow_calm|].
  rewrite read_flag_calm; [|done|by rewrite !grow_calm].
  cbn iota.
  rewrite sleep_loop_calm; [|done|by rewrite !grow_calm].
  destruct (IH (grow E (concat (replicate (Z.to_nat sync_interval)
                                  [EvReadFlag false; EvSleep 1]))
                  (grow E [EvReadFlag false]
                     (grow E (concat passes) (grow E [EvReadFlag false] w)))))
    as (cycles & -> & Hlen & Hcycles); [by rewrite !grow_calm|].
  exists ((EvReadFlag false :: concat passes
           ++ EvReadFlag false
           :: concat (replicate (Z.to_nat sync_interval)
                        [EvReadFlag false; EvSleep 1])) :: cycles).
  split_and!.
  + f_equal. cbn [concat]. rewrite <- !grow_app. f_equal.
    cbn [app]. by rewrite <- !app_assoc.
  + cbn [length]. by rewrite Hlen.
  + constructor; [|done]. by exists passes.
Qed.

End CycleFacts.

(** X21: in continuous mode, when no signal is delivered and [gh] can be
    started, [run_sync] does not return: whatever the fuel, it is still
    running, and after the probing of the board its history is one cycle
    per unit of fuel, each a pass over every mapping followed by as many
    one-second sleeps as the interval counts seconds (none for an interval
    of zero or less). *)
Theorem continuous_mode_cycles (E : environment) (cfg : config) (fuel : nat) :
  no_shutdown E ->
  tool_starts E ->
  exists vibe_url setup cycles,
    run_sync E cfg false fuel initial_world
    = (Ok Running, World (setup ++ concat cycles) false)
    /\ Forall (fun ev => is_setup ev = true) setup
    /\ length cycles = fuel
    /\ Forall (cycle_of vibe_url (default 100 (issue_limit cfg))
                        (default [] (projects cfg))
                        (Z.to_nat (default 60 (sync_interval_seconds cfg))))
              cycles.
Proof.
  intros Hcalm Hstarts. unfold run_sync, mbind, M_bind, bind.
  destruct (LoopFacts.get_vibe_api_url_run E cfg initial_world)
    as (vibe_url & setup & -> & Hsetup).
  destruct (CycleFacts.while_loop_cycles E fuel vibe_url
              (default 100 (issue_limit cfg)) (default 60 (sync_interval_seconds cfg))
              (default [] (projects cfg)) (grow E setup initial_world) Hcalm Hstarts)
    as (cycles & -> & Hlen & Hcycles); [by rewrite LoopFacts.grow_calm|].
  exists vibe_url, setup, cycles. split_and!; [|done..].
  f_equal. rewrite <- WorldFacts.grow_app.
  pose proof (LoopFacts.grow_calm E (setup ++ concat cycles) initial_world Hcalm)
    as Hflag.
  destruct (grow E _ initial_world) as [h b] eqn:Hgrow.
  cbn in Hflag. subst b. unfold grow in Hgrow. by injection Hgrow as <-.
Qed.

Lemma continuous_mode_cycles_witness :
  exists vibe_url setup cycles,
    run_sync Demo.idle Demo.every_three_seconds false 2 initial_world
    = (Ok Running, World (setup ++ concat cycles) false)
    /\ Forall (fun ev => is_setup ev = true) setup
    /\ length cycles = 2%nat
    /\ Forall (cycle_of vibe_url (default 100 (issue_limit Demo.every_three_seconds))
                        (default [] (projects Demo.every_three_seconds))
                        (Z.to_nat (default 60
                           (sync_interval_seconds Demo.every_three_seconds))))
              cycles.
Proof.
  apply (continuous_mode_cycles Demo.idle Demo.every_three_seconds 2).
  - intros t. reflexivity.
  - intros t cmd. discriminate.
Defined.

(** ** The maintenance utility *)

Module ClearFacts.
Import ClearTasks.

Section Utility.

Variable B : board.

Lemma fetch_tasks_run (api_url project_id : string) (tr : list call) :
(fetch_tasks B api_url project_id tr).2 = tr ++ [Get (api_url +:+ "/api/tasks")]
/\ forall t, t ∈ (fetch_tasks B api_url project_id tr).1 ->
   bt_project_id t = Str project_id
   /\ t ∈ listed (on_get B (length tr) (api_url +:+ "/api/tasks")).
Proof.
unfold fetch_tasks, listed. cbv zeta.
destruct (on_get B _ _) as [r|]; [|by split; [|intros t ?%elem_of_nil]].
destruct (reply_status r =? 200); [|by split; [|intros t ?%elem_of_nil]].
destruct (reply_json r) as [data|]; [|by split; [|intros t ?%elem_of_nil]].
destruct (listing_success data); [|by split; [|intros t ?%elem_of_nil]].
split; [done|]. cbn [fst]. by intros t [? ?]%list_elem_of_filter.
Qed.

Lemma delete_task_trace (api_url task_id : string) (tr : list call) :
(delete_task B api_url task_id tr).2
= tr ++ [Delete (api_url +:+ "/api/tasks/" +:+ task_id)].
Proof. unfold delete_task. cbv zeta. by destruct (on_delete B _ _). Qed.

Lemma targets_cons (api_url : string) (t : board_task) (rest : list board_task) :
targets api_url (t :: rest)
= match bt_id t with
| Str task_id =>
    if Py.truthy task_id
    then (api_url +:+ "/api/tasks/" +:+ task_id) :: targets api_url rest
    else targets api_url rest
| Absent | Null => targets api_url rest
end.
Proof.
unfold targets. cbn [omap list_omap].
destruct (bt_id t) as [| |task_id]; [done..|]. by destruct (Py.truthy task_id).
Qed.

Lemma delete_all_run (api_url : string) (tasks : list board_task) (tr : list call) :
(delete_all B api_url tasks tr).2 = tr ++ (Delete <$> targets api_url tasks)
/\ ((delete_all B api_url tasks tr).1 <= length (targets api_url tasks))%nat.
Proof.
revert tr. induction tasks as [|t rest IH]; intros tr.
- cbn. by rewrite app_nil_r.
- cbn [delete_all]. rewrite targets_cons.
destruct (bt_id t) as [| |task_id]; [apply IH..|].
destruct (Py.truthy task_id); [|apply IH].
pose proof (delete_task_trace api_url task_id tr) as Htrace.
destruct (delete_task B api_url task_id tr) as [ok tr1]. cbn [snd] in Htrace.
destruct (IH tr1) as [Hrest Hcount].
destruct (delete_all B api_url rest tr1) as [deleted tr2].
cbn [fst snd] in *. subst tr1 tr2. split.
+ by rewrite <- app_assoc.
+ cbn [length fmap list_fmap]. destruct ok; lia.
Qed.

Lemma length_omap_le {A C : Type} (f : A -> option C) (l : list A) :
(length (omap f l) <= length l)%nat.
Proof.
induction l as [|x l IH]; [done|].
cbn [omap list_omap length]. destruct (f x); cbn [length]; fold (omap f l); lia.
Qed.

Lemma targets_length (api_url : string) (tasks : list board_task) :
(length (targets api_url tasks) <= length tasks)%nat.
Proof. apply length_omap_le. Qed.

Lemma targets_elem (api_url : string) (tasks : list board_task) (url : string) :
url ∈ targets api_url tasks ->
exists t task_id,
t ∈ tasks /\ bt_id t = Str task_id /\ task_id <> ""
/\ url = api_url +:+ "/api/tasks/" +:+ task_id.
Proof.
unfold targets. intros (t & Ht & Hurl)%list_elem_of_omap.
destruct (bt_id t) as [| |task_id] eqn:Hid; [done..|].
destruct (Py.truthy task_id) eqn:Htruthy; [|done].
injection Hurl as <-. exists t, task_id. split_and!; [done..| |done].
by destruct task_id.
Qed.

Lemma deletes_app (a b : list call) : deletes (a ++ b) = deletes a ++ deletes b.
Proof. unfold deletes. apply omap_app. Qed.

Lemma deletes_fmap (urls : list string) : deletes (Delete <$> urls) = urls.
Proof. induction urls as [|u urls IH]; [done|]. cbn. by f_equal. Qed.

Lemma select_tasks_elem (flt : string) (tasks kept : list board_task) :
select_tasks flt tasks = Some kept ->
(length kept <= length tasks)%nat
/\ forall t, t ∈ kept -> t ∈ tasks /\ wanted flt t = Some true.
Proof.
revert kept. induction tasks as [|t rest IH]; intros kept.
- intros [= <-]. split; [done|]. by intros t ?%elem_of_nil.
- cbn [select_tasks]. destruct (wanted flt t) as [keep|] eqn:Hwanted; [|done].
destruct (select_tasks flt rest) as [kept'|]; [|done].
intros [= <-]. destruct (IH kept' eq_refl) as [Hlen Hkept].
destruct keep.
+ split; [cbn; lia|].
  intros t' [->|Hin]%elem_of_cons; [by split; [left|]|].
  destruct (Hkept t' Hin). split; [by right|done].
+ split; [cbn; lia|].
  intros t' Hin. destruct (Hkept t' Hin). split; [by right|done].
Qed.

Lemma select_tasks_none (flt : string) (tasks : list board_task) :
select_tasks flt tasks = None ->
exists t, t ∈ tasks /\ bt_title t = Null.
Proof.
induction tasks as [|t rest IH]; [done|].
cbn [select_tasks]. destruct (wanted flt t) as [keep|] eqn:Hwanted.
- destruct (select_tasks flt rest) as [kept'|]; [done|].
intros _. destruct (IH eq_refl) as (t' & Hin & Hnull).
exists t'. split; [by right|done].
- intros _. exists t. split; [by left|].
unfold wanted in Hwanted. by destruct (bt_title t).
Qed.

(** What the filter stage hands on: [None] when it raises. *)
Lemma chosen_tasks (flt : string) (fetched : list board_task) :
match (if Py.truthy flt then select_tasks flt fetched else Some fetched) with
| None => flt <> "" /\ exists t, t ∈ fetched /\ bt_title t = Null
| Some chosen =>
  (length chosen <= length fetched)%nat
  /\ forall t, t ∈ chosen ->
       t ∈ fetched /\ (flt <> "" -> wanted flt t = Some true)
end.
Proof.
destruct (Py.truthy flt) eqn:Hflt.
- destruct (select_tasks flt fetched) as [kept|] eqn:Hsel.
+ destruct (select_tasks_elem _ _ _ Hsel) as [Hlen Hkept].
  split; [done|]. intros t Ht. destruct (Hkept t Ht) as [? ?]. by split.
+ split; [by destruct flt|]. by apply (select_tasks_none flt).
- split; [done|]. intros t Ht. split; [done|]. by destruct flt.
Qed.

(** The ways [main] goes once the configuration is loaded. *)
Lemma main_cases (a : args) (cfg : config) (tr : list call) :
let api_url := default "http://localhost:3000" (vibe_api_url cfg) in
let project_id := Py.or_empty (arg_project_id a) in
let flt := Py.or_empty (arg_filter a) in
let url := api_url +:+ "/api/tasks" in
let fetched := (fetch_tasks B api_url project_id tr).1 in
(project_id = "" /\ main B a (Some cfg) tr = (Exit 0, tr))
\/ (main B a (Some cfg) tr = (Exit 0, tr ++ [Get url]))
\/ (main B a (Some cfg) tr = (RaisesAttributeError, tr ++ [Get url])
  /\ flt <> "" /\ exists t, t ∈ fetched /\ bt_title t = Null)
\/ (exists chosen,
    arg_dry_run a = false
    /\ (length chosen <= length fetched)%nat
    /\ (forall t, t ∈ chosen ->
          t ∈ fetched /\ (flt <> "" -> wanted flt t = Some true))
    /\ ((Text.lower (Py.strip (on_input B (S (length tr))
                                 (confirm_prompt (length chosen)))) <> "y"
         /\ main B a (Some cfg) tr
            = (Exit 0, tr ++ [Get url; Input (confirm_prompt (length chosen))]))
        \/ (Text.lower (Py.strip (on_input B (S (length tr))
                                    (confirm_prompt (length chosen)))) = "y"
            /\ main B a (Some cfg) tr
               = (Exit 0, tr ++ [Get url; Input (confirm_prompt (length chosen))]
                          ++ (Delete <$> targets api_url chosen))))).
Proof.
cbv zeta. unfold main.
destruct (Py.truthy (Py.or_empty (arg_project_id a))) eqn:Hpid; cbn [negb].
2:{ left. split; [|done]. by destruct (Py.or_empty (arg_project_id a)). }
right.
pose proof (fetch_tasks_run (default "http://localhost:3000" (vibe_api_url cfg))
            (Py.or_empty (arg_project_id a)) tr) as [Htrace _].
destruct (fetch_tasks B _ _ tr) as [fetched tr1]. cbn [fst snd] in *. subst tr1.
pose proof (chosen_tasks (Py.or_empty (arg_filter a)) fetched) as Hchosen.
destruct fetched as [|t0 fetched0] eqn:Hfetched; [by left|].
rewrite <- Hfetched in *. clear Hfetched t0 fetched0.
destruct (if Py.truthy (Py.or_empty (arg_filter a))
        then select_tasks (Py.or_empty (arg_filter a)) fetched
        else Some fetched) as [[|c chosen]|].
- by left.
- destruct Hchosen as [Hlen Hin]. destruct (arg_dry_run a) eqn:Hdry; [by left|].
right. right. exists (c :: chosen). split_and!; [done..|].
assert (length (tr ++ [Get (default "http://localhost:3000" (vibe_api_url cfg)
                            +:+ "/api/tasks")]) = S (length tr)) as ->
  by (rewrite length_app; cbn; lia).
destruct (bool_decide (Text.lower _ = "y")) eqn:Hyes.
+ right. apply bool_decide_eq_true in Hyes. split; [done|]. f_equal.
  rewrite (proj1 (delete_all_run _ _ _)). by rewrite <- !app_assoc.
+ left. apply bool_decide_eq_false in Hyes. split; [done|].
  by rewrite <- app_assoc.
- right. left. by destruct Hchosen as [? ?].
Qed.

End Utility.

End ClearFacts.

(** X9: [delete_task] sends one DELETE to [/api/tasks/<id>] and returns
    [True] exactly when the board answers 200 or 204; a request that
    raises gives [False]. *)
Theorem delete_task_status (B : ClearTasks.board) (api_url task_id : string)
    (tr : list ClearTasks.call) :
  let url := api_url +:+ "/api/tasks/" +:+ task_id in
  (ClearTasks.delete_task B api_url task_id tr).2 = tr ++ [ClearTasks.Delete url]
  /\ ((ClearTasks.delete_task B api_url task_id tr).1 = true
      <-> exists r, ClearTasks.on_delete B (length tr) url = ClearTasks.Replies r
                    /\ (ClearTasks.reply_status r = 200
                        \/ ClearTasks.reply_status r = 204))
  /\ (ClearTasks.on_delete B (length tr) url = ClearTasks.Errors ->
      (ClearTasks.delete_task B api_url task_id tr).1 = false).
Proof.
  cbv zeta. split_and!.
  - apply ClearFacts.delete_task_trace.
  - unfold ClearTasks.delete_task. cbv zeta.
    destruct (ClearTasks.on_delete B _ _) as [r|]; cbn [fst].
    + rewrite bool_decide_eq_true. split.
      * intros Hin. exists r. split; [done|].
        apply elem_of_cons in Hin as [->|Hin]; [by left|].
        apply list_elem_of_singleton in Hin as ->. by right.
      * intros (r' & [= <-] & [-> | ->]); set_solver.
    + split; [done|]. by intros (r & ? & _).
  - unfold ClearTasks.delete_task. cbv zeta. by intros ->.
Qed.

(** X10: [fetch_tasks] sends one GET and returns only tasks that the board
    listed and whose [project_id] is the one asked for; a status other
    than 200, a false [success], a body that is not JSON and a request
    that raises all give the empty list. *)
Theorem fetch_tasks_of_project (B : ClearTasks.board) (api_url project_id : string)
    (tr : list ClearTasks.call) :
  let url := api_url +:+ "/api/tasks" in
  let b := ClearTasks.on_get B (length tr) url in
  (ClearTasks.fetch_tasks B api_url project_id tr).2 = tr ++ [ClearTasks.Get url]
  /\ (forall t, t ∈ (ClearTasks.fetch_tasks B api_url project_id tr).1 ->
        ClearTasks.bt_project_id t = ClearTasks.Str project_id
        /\ t ∈ ClearTasks.listed b)
  /\ (forall r data t,
        b = ClearTasks.Replies r -> ClearTasks.reply_status r = 200 ->
        ClearTasks.reply_json r = Some data ->
        ClearTasks.listing_success data = true ->
        t ∈ ClearTasks.listed b ->
        ClearTasks.bt_project_id t = ClearTasks.Str project_id ->
        t ∈ (ClearTasks.fetch_tasks B api_url project_id tr).1)
  /\ (b = ClearTasks.Errors
      \/ (exists r, b = ClearTasks.Replies r
                    /\ (ClearTasks.reply_status r <> 200
                        \/ ClearTasks.reply_json r = None
                        \/ exists data, ClearTasks.reply_json r = Some data
                                        /\ ClearTasks.listing_success data = false)) ->
      (ClearTasks.fetch_tasks B api_url project_id tr).1 = []).
Proof.
  cbv zeta.
  destruct (ClearFacts.fetch_tasks_run B api_url project_id tr) as [Htrace Helem].
  split_and!; [done|done| |].
  - intros r data t Hb Hstatus Hjson Hsuccess Hlisted Hproject.
    unfold ClearTasks.fetch_tasks, ClearTasks.listed in *. cbv zeta.
    rewrite Hb in *. rewrite Hstatus, Hjson in *. rewrite Hsuccess.
    cbn [fst Z.eqb Pos.eqb]. by apply list_elem_of_filter.
  - unfold ClearTasks.fetch_tasks. cbv zeta.
    intros [->|(r & -> & [Hstatus|[Hjson|(data & Hjson & Hsuccess)]])]; [done|..].
    + by rewrite (proj2 (Z.eqb_neq _ 200)).
    + rewrite Hjson. by destruct (_ =? 200).
    + rewrite Hjson, Hsuccess. by destruct (_ =? 200).
Qed.

(** X11: every DELETE that [main] sends is for a task that the board
    listed for the project named on the command line, that carries a
    non-empty id, and that passes the filter when one is given. *)
Theorem main_deletes_only_chosen (B : ClearTasks.board) (a : ClearTasks.args)
    (cfg : config) (tr : list ClearTasks.call) (url : string) :
  let api_url := default "http://localhost:3000" (vibe_api_url cfg) in
  let project_id := Py.or_empty (ClearTasks.arg_project_id a) in
  let flt := Py.or_empty (ClearTasks.arg_filter a) in
  exists calls,
    (ClearTasks.main B a (Some cfg) tr).2 = tr ++ calls
    /\ (url ∈ ClearTasks.deletes calls ->
        exists t,
          t ∈ ClearTasks.listed
                (ClearTasks.on_get B (length tr) (api_url +:+ "/api/tasks"))
          /\ ClearTasks.deletable api_url project_id flt t url).
Proof.
  cbv zeta.
  destruct (ClearFacts.main_cases B a cfg tr)
    as [[_ ->]|[->|[[-> _]|(chosen & _ & _ & Hchosen & [[_ ->]|[_ ->]])]]].
  - exists []. split; [by rewrite app_nil_r|]. by intros ?%elem_of_nil.
  - eexists. split; [done|]. by intros ?%elem_of_nil.
  - eexists. split; [done|]. by intros ?%elem_of_nil.
  - eexists. split; [done|]. by intros ?%elem_of_nil.
  - eexists. split; [done|].
    rewrite ClearFacts.deletes_app, ClearFacts.deletes_fmap. cbn [ClearTasks.deletes omap list_omap app].
    intros (t & task_id & Ht & Hid & Hne & ->)%ClearFacts.targets_elem.
    destruct (Hchosen t Ht) as [Hfetched Hwanted].
    destruct (proj2 (ClearFacts.fetch_tasks_run B _ _ tr) t Hfetched)
      as [Hproject Hlisted].
    exists t. split; [done|]. split_and!; [done| |done].
    by exists task_id.
Qed.

(** X12: [main] deletes nothing in dry-run mode, and nothing unless the
    answer to its prompt, stripped and lowered, is ["y"]; in dry-run mode
    it does not even prompt. *)
Theorem main_deletes_only_when_confirmed (B : ClearTasks.board)
    (a : ClearTasks.args) (cfg : config) (tr : list ClearTasks.call) :
  exists calls,
    (ClearTasks.main B a (Some cfg) tr).2 = tr ++ calls
    /\ (ClearTasks.deletes calls <> [] ->
        ClearTasks.arg_dry_run a = false
        /\ exists prompt,
             ClearTasks.Input prompt ∈ calls
             /\ Text.lower (Py.strip (ClearTasks.on_input B (S (length tr)) prompt))
                = "y")
    /\ (ClearTasks.arg_dry_run a = true ->
        forall prompt, ClearTasks.Input prompt ∉ calls).
Proof.
  destruct (ClearFacts.main_cases B a cfg tr)
    as [[_ ->]|[->|[[-> _]|(chosen & Hdry & _ & _ & [[_ ->]|[Hyes ->]])]]].
  - exists []. split_and!; [by rewrite app_nil_r|done|].
    by intros _ prompt ?%elem_of_nil.
  - eexists. split_and!; [done|done|]. intros _ prompt. set_solver.
  - eexists. split_and!; [done|done|]. intros _ prompt. set_solver.
  - eexists. split_and!; [done|done|]. by rewrite Hdry.
  - eexists. split_and!; [done| |by rewrite Hdry].
    intros _. split; [done|]. eexists. split; [|done]. set_solver.
Qed.

(** X13: once the configuration is loaded, [main] makes at most two calls
    besides its DELETEs (the GET and the prompt) and sends no more DELETEs
    than the board listed tasks; it ends with code 0, except that with a filter a listed task of
    the project whose title is null makes it raise before any deletion. *)
Theorem main_is_bounded (B : ClearTasks.board) (a : ClearTasks.args)
    (cfg : config) (tr : list ClearTasks.call) :
  let api_url := default "http://localhost:3000" (vibe_api_url cfg) in
  let b := ClearTasks.on_get B (length tr) (api_url +:+ "/api/tasks") in
  exists calls,
    (ClearTasks.main B a (Some cfg) tr).2 = tr ++ calls
    /\ (length calls <= 2 + length (ClearTasks.deletes calls))%nat
    /\ (length (ClearTasks.deletes calls) <= length (ClearTasks.listed b))%nat
    /\ ((ClearTasks.main B a (Some cfg) tr).1 = ClearTasks.Exit 0
        \/ ((ClearTasks.main B a (Some cfg) tr).1 = ClearTasks.RaisesAttributeError
            /\ ClearTasks.deletes calls = []
            /\ Py.or_empty (ClearTasks.arg_filter a) <> ""
            /\ exists t, t ∈ ClearTasks.listed b
                         /\ ClearTasks.bt_project_id t
                            = ClearTasks.Str (Py.or_empty (ClearTasks.arg_project_id a))
                         /\ ClearTasks.bt_title t = ClearTasks.Null)).
Proof.
  cbv zeta.
  destruct (ClearFacts.main_cases B a cfg tr)
    as [[_ ->]|[->|[[-> [Hflt (t & Ht & Hnull)]]
                   |(chosen & _ & Hlen & _ & [[_ ->]|[_ ->]])]]].
  - exists []. split_and!; [by rewrite app_nil_r|cbn; lia..|by left].
  - eexists. split_and!; [done|cbn; lia|cbn; lia|by left].
  - eexists. split_and!; [done|cbn; lia|cbn; lia|].
    right. split_and!; [done..|].
    destruct (proj2 (ClearFacts.fetch_tasks_run B _ _ tr) t Ht) as [? ?].
    by exists t.
  - eexists. split_and!; [done|cbn; lia|cbn; lia|by left].
  - eexists. split_and!; [done| | |by left].
    + rewrite ClearFacts.deletes_app, ClearFacts.deletes_fmap, !length_app, length_fmap.
      cbn. lia.
    + rewrite ClearFacts.deletes_app, ClearFacts.deletes_fmap.
      cbn [ClearTasks.deletes omap list_omap app].
      pose proof (ClearFacts.targets_length
                    (default "http://localhost:3000" (vibe_api_url cfg)) chosen).
      assert (length (ClearTasks.fetch_tasks B
                        (default "http://localhost:3000" (vibe_api_url cfg))
                        (Py.or_empty (ClearTasks.arg_project_id a)) tr).1
              <= length (ClearTasks.listed (ClearTasks.on_get B (length tr)
                   (default "http://localhost:3000" (vibe_api_url cfg) +:+ "/api/tasks"))))%nat.
      { unfold ClearTasks.fetch_tasks, ClearTasks.listed. cbv zeta.
        destruct (ClearTasks.on_get B _ _) as [r|]; [|done].
        destruct (ClearTasks.reply_status r =? 200); [|cbn; lia].
        destruct (ClearTasks.reply_json r) as [data|]; [|done].
        destruct (ClearTasks.listing_success data); [|cbn; lia].
        cbn [fst]. apply length_filter. }
      lia.
Qed.

(** A run of the utility: of the three tasks listed, one belongs to
    another project and one carries no id; the filter keeps the two of the
    project, the user confirms, and one DELETE is sent. *)
Example clear_login_tasks :
  ClearTasks.main SampleBoard.willing SampleBoard.login_args
    (Some SampleBoard.local_config) []
  = (ClearTasks.Exit 0,
     [ClearTasks.Get "http://localhost:3000/api/tasks";
      ClearTasks.Input (ClearTasks.confirm_prompt 2);
      ClearTasks.Delete "http://localhost:3000/api/tasks/a1"]).
Proof. vm_compute. reflexivity. Qed.

(** ** The selection of the projects *)

Module SelectFacts.

Lemma selected_projects_elem (ps : list project) (indices : list Z) (p : project) :
p ∈ selected_projects ps indices -> p ∈ ps.
Proof.
unfold selected_projects. intros (i & _ & Hp)%list_elem_of_omap.
destruct ((0 <=? i) && (i <? Z.of_nat (length ps))); [|done].
by eapply list_elem_of_lookup_2.
Qed.

Lemma selected_projects_length (ps : list project) (indices : list Z) :
(length (selected_projects ps indices) <= length indices)%nat.
Proof. apply ClearFacts.length_omap_le. Qed.

End SelectFacts.

(** X14: [select_projects_interactive] returns [None] only when no project
    is configured.  Otherwise, whatever is typed, it returns the
    configuration itself or a copy that differs in the projects alone, and
    these are never empty and all taken from the configured ones: an
    answer that cannot be read or that names no valid number selects
    everything. *)
Theorem select_projects_sound (py_int : string -> option Z) (answer : string)
    (cfg : config) :
  (select_projects_interactive py_int answer cfg = None
   <-> default [] (projects cfg) = [])
  /\ (forall cfg',
        select_projects_interactive py_int answer cfg = Some cfg' ->
        vibe_api_url cfg' = vibe_api_url cfg
        /\ sync_interval_seconds cfg' = sync_interval_seconds cfg
        /\ issue_limit cfg' = issue_limit cfg
        /\ default [] (projects cfg') <> []
        /\ (forall p, p ∈ default [] (projects cfg') -> p ∈ default [] (projects cfg))
        /\ (cfg' = cfg
            \/ exists indices,
                 selection_indices py_int (Py.strip answer) = Some indices
                 /\ projects cfg'
                    = Some (selected_projects (default [] (projects cfg)) indices))).
Proof.
  unfold select_projects_interactive.
  destruct (default [] (projects cfg)) as [|p1 [|p2 ps]] eqn:Hps.
  - split; [done|]. by intros cfg' [=].
  - split; [done|]. intros cfg' [= <-]. rewrite Hps.
    split_and!; [done..| |by left]. done.
  - cbv zeta.
    assert (forall cfg', Some cfg = Some cfg' ->
              vibe_api_url cfg' = vibe_api_url cfg
              /\ sync_interval_seconds cfg' = sync_interval_seconds cfg
              /\ issue_limit cfg' = issue_limit cfg
              /\ default [] (projects cfg') <> []
              /\ (forall p, p ∈ default [] (projects cfg') -> p ∈ p1 :: p2 :: ps)
              /\ (cfg' = cfg
                  \/ exists indices,
                       selection_indices py_int (Py.strip answer) = Some indices
                       /\ projects cfg'
                          = Some (selected_projects (p1 :: p2 :: ps) indices)))
      as Hsame.
    { intros cfg' [= <-]. rewrite Hps. split_and!; [done..| |by left]. done. }
    destruct (bool_decide (Py.strip answer = "0") || bool_decide (Py.strip answer = ""));
      [by split|].
    destruct (selection_indices py_int (Py.strip answer)) as [indices|] eqn:Hidx;
      [|by split].
    destruct (selected_projects (p1 :: p2 :: ps) indices) as [|s1 selected] eqn:Hsel;
      [by split|].
    split; [done|]. intros cfg' [= <-]. cbn [vibe_api_url sync_interval_seconds
      issue_limit projects default from_option id].
    split_and!; [done..| |].
    + intros p Hp. rewrite <- Hsel in Hp. by eapply SelectFacts.selected_projects_elem.
    + right. exists indices. by rewrite <- Hsel.
Qed.

(** X15: the numbers typed are positions counted from 1: with two or more
    projects configured, an answer without comma that is not blank, is not
    ["0"] and reads as a number [n] from 1 to the number of projects
    selects the [n]-th configured project and nothing else. *)
Theorem select_projects_by_number (py_int : string -> option Z) (answer : string)
    (cfg : config) (n : Z) (p : project) :
  (2 <= length (default [] (projects cfg)))%nat ->
  Text.split ","%char (Py.strip answer) = [Py.strip answer] ->
  py_int (Py.strip (Py.strip answer)) = Some n ->
  Py.strip answer <> "" ->
  Py.strip answer <> "0" ->
  default [] (projects cfg) !! Z.to_nat (n - 1) = Some p ->
  0 < n ->
  select_projects_interactive py_int answer cfg
  = Some (Config (vibe_api_url cfg) (sync_interval_seconds cfg) (issue_limit cfg)
                 (Some [p])).
Proof.
  intros Hlen Hsplit Hint Hne Hzero Hp Hpos. unfold select_projects_interactive.
  destruct (default [] (projects cfg)) as [|p1 [|p2 ps]] eqn:Hps;
    [cbn in Hlen; lia..|]. cbv zeta.
  rewrite (bool_decide_eq_false_2 _ Hzero).
  rewrite (bool_decide_eq_false_2 _ Hne). cbn [orb].
  unfold selection_indices. rewrite Hsplit. cbn [mapM]. rewrite Hint.
  cbn [fmap option_fmap option_map mbind option_bind mret option_ret].
  unfold selected_projects. cbn [omap list_omap].
  pose proof (lookup_lt_Some _ _ _ Hp) as Hbound.
  rewrite (proj2 (Z.leb_le 0 (n - 1))) by lia.
  rewrite (proj2 (Z.ltb_lt (n - 1) _)) by lia.
  cbn [andb]. by rewrite Hp.
Qed.

Lemma select_projects_by_number_witness :
  select_projects_interactive SampleSelect.digit " 2 " SampleSelect.three_projects
  = Some (Config (Some Demo.api) None None (Some [Project "o/s" "p2"])).
Proof.
  apply (select_projects_by_number SampleSelect.digit " 2 "
           SampleSelect.three_projects 2 (Project "o/s" "p2")).
  - cbn. lia.
  - vm_compute. reflexivity.
  - vm_compute. reflexivity.
  - vm_compute. discriminate.
  - vm_compute. discriminate.
  - reflexivity.
  - lia.
Defined.

(** An answer with two numbers, the second out of range, and a blank one. *)
Example select_projects_samples :
  select_projects_interactive SampleSelect.digit "3, 1" SampleSelect.three_projects
  = Some (Config (Some Demo.api) None None
                 (Some [Project "o/t" "p3"; Project "o/r" "p1"]))
  /\ select_projects_interactive SampleSelect.digit "x" SampleSelect.three_projects
     = Some SampleSelect.three_projects
  /\ select_projects_interactive SampleSelect.digit "  " SampleSelect.three_projects
     = Some SampleSelect.three_projects.
Proof. split_and!; vm_compute; reflexivity. Qed.

(** ** The first script *)

Module OccursFacts.
Import PyFacts.

Lemma occurs_refl (s : string) : occurs s s.
Proof. exists "", "". by rewrite app_empty, Detector.app_empty_r. Qed.

Lemma occurs_trans (u v s : string) : occurs u v -> occurs v s -> occurs u s.
Proof.
intros (l' & r' & ->) (l & r & ->). exists (l +:+ l'), (r' +:+ r).
by rewrite !Detector.app_assoc.
Qed.

Lemma occurs_cons (u s : string) (c : ascii) : occurs u s -> occurs u (String c s).
Proof. intros (l & r & ->). exists (String c l), r. by rewrite app_cons. Qed.

Lemma occurs_prefix (u r : string) : occurs u (u +:+ r).
Proof. exists "", r. by rewrite app_empty. Qed.

Lemma occurs_suffix (l u : string) : occurs u (l +:+ u).
Proof. exists l, "". by rewrite Detector.app_empty_r. Qed.

Lemma substring_0_prefix (m : nat) (s : string) :
exists r, s = String.substring 0 m s +:+ r.
Proof.
revert m. induction s as [|c s IH]; intros m.
- exists "". by destruct m.
- destruct m as [|m]; [by exists (String c s)|].
  cbn [String.substring]. destruct (IH m) as [r Hr].
  exists r. rewrite app_cons. by f_equal.
Qed.

Lemma occurs_substring (n m : nat) (s : string) : occurs (String.substring n m s) s.
Proof.
revert n. induction s as [|c s IH]; intros n.
- replace (String.substring n m "") with "" by (by destruct n, m).
  apply occurs_refl.
- destruct n as [|n].
  + destruct (substring_0_prefix m (String c s)) as [r Hr].
    rewrite Hr at 2. apply occurs_prefix.
  + cbn [String.substring]. apply occurs_cons, IH.
Qed.

Lemma lstrip_suffix (s : string) : exists l, s = l +:+ Py.lstrip s.
Proof.
induction s as [|c s [l IH]]; [by exists ""|].
cbn [Py.lstrip]. destruct (Py.isspace c).
- exists (String c l). rewrite app_cons. by f_equal.
- by exists "".
Qed.

Lemma rstrip_prefix (s : string) : exists r, s = Py.rstrip s +:+ r.
Proof.
induction s as [|c s [r IH]]; [by exists ""|].
cbn [Py.rstrip]. destruct (Py.rstrip s) as [|d t] eqn:Ht.
- destruct (Py.isspace c).
  + by exists (String c s).
  + exists s. by rewrite app_cons, app_empty.
- exists r. rewrite app_cons. by f_equal.
Qed.

Lemma occurs_strip (s : string) : occurs (Py.strip s) s.
Proof.
unfold Py.strip. destruct (lstrip_suffix s) as [l Hl].
destruct (rstrip_prefix (Py.lstrip s)) as [r Hr].
exists l, r. by rewrite <- Hr.
Qed.

(** What occurs in a string is found in it by [in]. *)
Lemma occurs_contains (u s : string) : occurs u s -> Py.contains u s = true.
Proof.
intros (l & r & ->). unfold Py.contains.
destruct (String.index 0 u (l +:+ u +:+ r)) as [n|] eqn:Hidx; [done|].
exfalso. destruct u as [|c u].
- rewrite app_empty in Hidx. apply String.index_correct4 in Hidx. lia.
- eapply (String.index_correct3 0 (String.length l + 0) _ _ Hidx); [done|lia|].
  rewrite substring_skip. apply substring_take.
Qed.

Lemma marker_url_occurs (content u : string) :
marker_url content = Some u -> occurs u content.
Proof.
unfold marker_url. destruct (Py.contains MARKER content); [|done]. cbv zeta.
destruct (Py.truthy _); [|done]. intros [= <-].
eapply occurs_trans; [apply occurs_strip|]. unfold Py.slice. cbv zeta.
apply occurs_substring.
Qed.

Lemma match_here_occurs (s m : string) : Re.match_here s = Some m -> occurs m s.
Proof.
intros [rest ->]%ScanFacts.match_here_prefix. apply occurs_prefix.
Qed.

Lemma findall_from_occurs (s : string) (skip : nat) (u : string) :
u ∈ Re.findall_from skip s -> occurs u s.
Proof.
revert skip. induction s as [|c s IH]; intros skip; [by intros ?%elem_of_nil|].
cbn [Re.findall_from]. destruct skip as [|k].
- destruct (Re.match_here (String c s)) as [m|] eqn:Hm.
  + intros [->|Hin]%elem_of_cons; [by apply match_here_occurs|].
    apply occurs_cons. by eapply IH.
  + intros Hin. apply occurs_cons. by eapply IH.
- intros Hin. apply occurs_cons. by eapply IH.
Qed.

(** Every URL of the URL set occurs in the content of a task. *)
Lemma lookup_url_occurs (tasks : list task) (x : string) :
x ∈ existing_urls (build_lookup tasks) ->
exists t, t ∈ tasks /\ occurs x (Py.or_empty (task_content t)).
Proof.
intros (t & Ht & [Hmarker|(u & Hu & ->)])%Detector.build_lookup_urls;
  exists t; (split; [done|]).
- by apply marker_url_occurs.
- eapply occurs_trans; [apply occurs_strip|]. by eapply findall_from_occurs.
Qed.

Lemma main_duplicate_by_content (vibe_tasks : list task) (t : task) (i : issue) :
t ∈ vibe_tasks ->
occurs (issue_url i) (Py.or_empty (task_content t)) ->
MainPass.is_duplicate (MainPass.existing_titles vibe_tasks)
  (MainPass.existing_contents vibe_tasks) i = true.
Proof.
intros Ht Hocc. unfold MainPass.is_duplicate.
destruct (bool_decide _); [done|].
apply existsb_exists. exists (Py.or_empty (task_content t)). split.
- apply list_elem_of_In, elem_of_elements. unfold MainPass.existing_contents.
  apply elem_of_list_to_set, list_elem_of_fmap. by exists t.
- by apply occurs_contains.
Qed.

End OccursFacts.

(** X16: the check of [main.py] recognises every task it created: a task
    of the board whose content is the one written for an issue makes that
    issue a duplicate, whatever the URL, the body and the title are. *)
Theorem main_created_task_recognised (vibe_tasks : list task) (t : task) (i : issue) :
  t ∈ vibe_tasks ->
  task_content t = Some (new_task_content i) ->
  MainPass.is_duplicate (MainPass.existing_titles vibe_tasks)
    (MainPass.existing_contents vibe_tasks) i = true.
Proof.
  intros Ht Hcontent. apply (OccursFacts.main_duplicate_by_content _ t); [done|].
  rewrite Hcontent. unfold Py.or_empty.
  destruct (Py.truthy (new_task_content i)) eqn:Htruthy.
  - unfold new_task_content. rewrite <- !Detector.app_assoc.
    apply OccursFacts.occurs_suffix.
  - exfalso. unfold new_task_content in Htruthy.
    destruct (Py.or_empty (issue_body i)); by vm_compute in Htruthy.
Qed.

Lemma main_created_task_recognised_witness :
  MainPass.is_duplicate (MainPass.existing_titles [Sample.made_from Demo.bug1])
    (MainPass.existing_contents [Sample.made_from Demo.bug1]) Demo.bug1 = true.
Proof.
  apply (main_created_task_recognised [Sample.made_from Demo.bug1]
           (Sample.made_from Demo.bug1) Demo.bug1).
  - apply list_elem_of_singleton. reflexivity.
  - reflexivity.
Defined.

(** X17: the two scripts agree on URLs in one direction: an issue whose
    URL is in the URL set that [vibe_gh_sync.py] builds from some tasks is
    a duplicate for the check of [main.py] on the same tasks. *)
Theorem url_duplicate_is_main_duplicate (vibe_tasks : list task) (i : issue) :
  issue_url i ∈ existing_urls (build_lookup vibe_tasks) ->
  MainPass.is_duplicate (MainPass.existing_titles vibe_tasks)
    (MainPass.existing_contents vibe_tasks) i = true.
Proof.
  intros (t & Ht & Hocc)%OccursFacts.lookup_url_occurs.
  by apply (OccursFacts.main_duplicate_by_content _ t).
Qed.

Lemma url_duplicate_is_main_duplicate_witness :
  MainPass.is_duplicate (MainPass.existing_titles [Demo.fix_bug_task])
    (MainPass.existing_contents [Demo.fix_bug_task]) Demo.fix_bug_issue = true.
Proof.
  apply (url_duplicate_is_main_duplicate [Demo.fix_bug_task] Demo.fix_bug_issue).
  vm_compute. reflexivity.
Defined.

(** The converse fails: the URL of issue 1 occurs in the content of the
    task made from issue 12, which is enough for [main.py] and not for
    [vibe_gh_sync.py]. *)
Example main_matches_longer_url :
  MainPass.is_duplicate
    (MainPass.existing_titles [Sample.made_from Sample.issue12])
    (MainPass.existing_contents [Sample.made_from Sample.issue12]) Demo.bug1 = true
  /\ is_duplicate (build_lookup [Sample.made_from Sample.issue12]) Demo.bug1 = false.
Proof. split; vm_compute; reflexivity. Qed.

Module MainPassFacts.
Import ClientFacts WorldFacts.

Lemma main_fetch_vibe_tasks_run (E : environment) (api_url project_id : string)
  (w : world) :
MainPass.fetch_vibe_tasks E api_url project_id w
= (Ok (filter (fun t => task_project_id t = project_id)
         (tasks_of (http_get E (length (history w)) (api_url +:+ "/api/tasks") []))),
   advance E (EvGet (api_url +:+ "/api/tasks") [] None) w).
Proof.
unfold MainPass.fetch_vibe_tasks, requests_get, json. run_monad.
destruct (http_get E _ _ _) as [r| |]; cbn; [|done..].
destruct (status_code r =? 200); [|done].
destruct (resp_json r) as [data|]; cbn; [|done].
by destruct (env_success data).
Qed.

End MainPassFacts.

(** X18: one pass of [main.py] keeps no track of what it creates: it posts
    every fetched issue that is not a duplicate of the tasks fetched at the
    start, in order and whatever the board answers, so an issue listed
    twice is posted twice. *)
Theorem main_pass_posts_every_new_issue (E : environment)
    (vibe_url vibe_proj_id : string) (titles : gset (option string))
    (contents : gset string) (gh_issues : list issue) (w : world) :
  MainPass.issue_loop E vibe_url vibe_proj_id titles contents gh_issues w
  = (Ok tt,
     grow E (map (MainPass.post_event vibe_url vibe_proj_id)
               (filter (fun i => MainPass.is_duplicate titles contents i = false)
                       gh_issues)) w).
Proof.
  revert w. induction gh_issues as [|i rest IH]; intros w.
  - cbn. by rewrite WorldFacts.grow_nil.
  - cbn [MainPass.issue_loop]. unfold mbind, M_bind, bind. rewrite filter_cons.
    destruct (MainPass.is_duplicate titles contents i) eqn:Hdup.
    + rewrite decide_False by done. cbn. apply IH.
    + rewrite decide_True by done.
      rewrite ClientFacts.main_create_vibe_task_run. cbn [map].
      rewrite WorldFacts.grow_cons. apply IH.
Qed.

(** X19: [fetch_vibe_tasks] of [main.py] asks for all the tasks with one
    GET, never raises, and returns only tasks whose [project_id] is the
    one asked for; a status other than 200, a false [success], a timeout
    and a connection error give the empty list. *)
Theorem main_fetch_vibe_tasks_of_project (E : environment)
    (api_url project_id : string) (w : world) :
  let b := http_get E (length (history w)) (api_url +:+ "/api/tasks") [] in
  exists vibe_tasks,
    MainPass.fetch_vibe_tasks E api_url project_id w
    = (Ok vibe_tasks, grow E [EvGet (api_url +:+ "/api/tasks") [] None] w)
    /\ (forall t, t ∈ vibe_tasks -> task_project_id t = project_id)
    /\ (forall r data all_tasks,
          b = Responds r -> status_code r = 200 ->
          resp_json r = Some data -> env_success data = true ->
          env_data data = Some all_tasks ->
          vibe_tasks = filter (fun t => task_project_id t = project_id) all_tasks)
    /\ (non_success b \/ network_error b -> vibe_tasks = []).
Proof.
  cbv zeta. eexists. split_and!.
  - rewrite MainPassFacts.main_fetch_vibe_tasks_run. by rewrite WorldFacts.grow_one.
  - by intros t [? _]%list_elem_of_filter.
  - intros r data all_tasks -> Hstatus Hjson Hsuccess Hdata.
    cbn [tasks_of]. by rewrite Hstatus, Hjson, Hsuccess, Hdata.
  - intros [[(r & -> & Hstatus)|(r & data & -> & Hjson & Hsuccess)]|[-> | ->]];
      cbn [tasks_of]; [| |done..].
    + by rewrite (proj2 (Z.eqb_neq _ 200)).
    + rewrite Hjson, Hsuccess. by destruct (status_code r =? 200).
Qed.
